(** * open_spiel/utils/file.cc: a shallow embedding and its properties

    The development follows the layout of the source file:
    - the path classifier [WindowsRootPrefixLength],
    - the [File] handle over a C stream,
    - the directory operations over the [stat]/[mkdir] system calls,
    - the environment queries [GetEnv] and [GetTmpDir].

    Definitions come first, the lemmas and theorems follow. *)

From Stdlib Require Import ZArith Lia Bool Ascii String List Strings.Byte.
From stdpp Require Import base option list gmap strings.

Local Open Scope string_scope.
Local Open Scope list_scope.
Local Open Scope nat_scope.

(* ===================================================================== *)
(** * Part I: definitions                                                 *)
(* ===================================================================== *)

(** ** Build configuration *)

(** The source has two build variants, selected by [#ifdef _WIN32]. *)
Inductive platform : Set := POSIX | WIN32.

(** ** [std::string] *)

(** A [std::string] is a [string]; a position is a [nat]. The sentinel
    [std::string::npos] is the largest [size_t], which no index into a string
    can reach ([max_size() < npos]), so a search result is an [option nat] and
    [npos] is [None]. *)
Module StdString.

Definition size (s : string) : nat := String.length s.

Definition empty (s : string) : bool :=
  match s with EmptyString => true | String _ _ => false end.

(** [s[i]]; the source only indexes below [size s]. *)
Definition at_ (s : string) (i : nat) : ascii :=
  match String.get i s with Some c => c | None => zero end.

Definition npos : option nat := None.

(** [chars] contains [c]. *)
Fixpoint contains (chars : string) (c : ascii) : bool :=
  match chars with
  | EmptyString => false
  | String d chars' => Ascii.eqb c d || contains chars' c
  end.

(** [s.find_first_of(chars, pos)]: the least index [i >= pos] whose
    character occurs in [chars], or [npos]. *)
Fixpoint find_first_of (s chars : string) (pos : nat) : option nat :=
  match s with
  | EmptyString => None
  | String c s' =>
      match pos with
      | O => if contains chars c then Some O
             else option_map S (find_first_of s' chars O)
      | S pos' => option_map S (find_first_of s' chars pos')
      end
  end.

(** The first [n] characters of [s] (all of [s] if it is shorter). *)
Fixpoint prefix (n : nat) (s : string) : string :=
  match n, s with
  | S n', String c s' => String c (prefix n' s')
  | _, _ => EmptyString
  end.

(** [s.substr(0, count)], where [count] may be [npos]. *)
Definition substr0 (s : string) (count : option nat) : string :=
  match count with
  | None => s
  | Some n => prefix n s
  end.

(** [s.c_str()] as the C library reads it: the characters before the first
    NUL. *)
Fixpoint c_str (s : string) : string :=
  match s with
  | EmptyString => EmptyString
  | String c s' => if Ascii.eqb c zero then EmptyString else String c (c_str s')
  end.

End StdString.

Import StdString.

(** The separator set of the two [find_first_of] calls: backslash, slash. *)
Definition separators : string := "\/".

Definition backslash : ascii := "\"%char.
Definition slash : ascii := "/"%char.
Definition colon : ascii := ":"%char.

(** ** Path classifier *)

Module internal.

Definition WindowsRootPrefixLengthImpl (pl : platform) (path : string) : nat :=
  match pl with
  | WIN32 =>
      if (1 <? size path) && Ascii.eqb (at_ path 1) colon then
        let prefix := 2 in
        if (2 <? size path)
           && (Ascii.eqb (at_ path 2) backslash || Ascii.eqb (at_ path 2) slash)
        then prefix + 1
        else prefix
      else if (1 <? size path)
              && Ascii.eqb (at_ path 0) backslash
              && Ascii.eqb (at_ path 1) backslash then
        match find_first_of path separators 2 with
        | None => size path
        | Some pos =>
            match find_first_of path separators (pos + 1) with
            | None => size path
            | Some pos' => pos'
            end
        end
      else 0
  | POSIX => 0
  end.

Definition WindowsRootPrefixLength (pl : platform) (path : string) : nat :=
  WindowsRootPrefixLengthImpl pl path.

End internal.

(** ** Outcomes of a call *)

(** A call either returns or leaves through an exception. [length_error] is
    what a [std::string] raises when asked for more than [max_size()]
    characters, [filesystem_error] what the throwing overloads of
    [std::filesystem] raise. *)
Inductive exception : Set :=
  | length_error
  | filesystem_error
  | SpielFatalError.

Inductive outcome (A : Type) : Type :=
  | Returns (a : A)
  | Throws (e : exception).
Arguments Returns {A} a.
Arguments Throws {A} e.

(** Modelled from the spec: the macro [SPIEL_CHECK_TRUE] of spiel_utils.h is
    not part of the sources at hand. The spec has construction of a handle
    fatal when the underlying open fails; a null pointer is [None] here. *)
Definition SPIEL_CHECK_TRUE {A : Type} (p : option A) : outcome A :=
  match p with
  | Some a => Returns a
  | None => Throws SpielFatalError
  end.

(** ** Machine integers *)

(** Conversion to [int] (32 bits, two's complement): an out-of-range value
    wraps around, as GCC, Clang and MSVC define it and C++20 requires. *)
Definition to_int (z : Z) : Z := ((z + 2 ^ 31) mod 2 ^ 32 - 2 ^ 31)%Z.

(** ** C streams *)

(** The state of an open stream over a regular file: the bytes of the file,
    the file position, and [room], the number of further bytes the device
    accepts before a write comes back short. File offsets are [off_t] values
    (64 bits on the platforms at hand), which [Z] covers.

    The record holds neither the mode the stream was opened in nor the
    buffer of the C library: a stream is read and written at its position,
    as one opened for update is, and a write reaches the file at once. The
    statements of Part IV therefore say how their streams were opened
    ([fresh], [reopen], [reopen_update]), ask for room on the device where
    they need a write to arrive, and keep offsets and counts below 2^31. *)
Record FILE : Type := mkFILE {
  contents : list byte;
  position : nat;
  room : nat
}.

Inductive whence : Set := SEEK_SET | SEEK_END.

(** A newly created, empty file. *)
Definition fresh (r : nat) : FILE := mkFILE [] 0 r.

Definition ftell (f : FILE) : Z := Z.of_nat (position f).

(** [fseek]: 0 and the new position, or -1 and no change when the target
    would lie before the start. Seeking past the end is allowed. *)
Definition fseek (f : FILE) (off : Z) (w : whence) : Z * FILE :=
  let base := match w with
              | SEEK_SET => 0%Z
              | SEEK_END => Z.of_nat (length (contents f))
              end in
  let target := (base + off)%Z in
  if (target <? 0)%Z then ((-1)%Z, f)
  else (0%Z, mkFILE (contents f) (Z.to_nat target) (room f)).

(** [fread(buf, 1, count, f)]: the bytes read, at most [count] and at most
    what is left after the position. *)
Definition fread (f : FILE) (count : nat) : list byte * FILE :=
  let got := take count (drop (position f) (contents f)) in
  (got, mkFILE (contents f) (position f + length got) (room f)).

(** [fwrite(buf, 1, length buf, f)]: the number of bytes written. Bytes that
    replace existing ones always fit; bytes past the end use up [room]. A
    gap left by a seek past the end is filled with zeros. *)
Definition fwrite (f : FILE) (buf : list byte) : nat * FILE :=
  let old := contents f in
  let pos := position f in
  let n := Nat.min (length buf) ((length old - pos) + room f) in
  if n =? 0 then (0, f)
  else
    let padded := old ++ replicate (pos - length old) x00 in
    let new := take pos padded ++ take n buf ++ drop (pos + n) old in
    (n, mkFILE new (pos + n) (room f - (n - (length old - pos)))).

Definition fflush (f : FILE) : Z * FILE := (0%Z, f).

Definition fclose (f : FILE) : Z := 0%Z.

(** ** The [File] handle *)

(** The methods act on the stream that [fd_] owns. *)
Module File.

(** [File::File(filename, mode)], over the [fopen] of the system. *)
Definition new (fopen : string -> string -> option FILE)
    (filename mode : string) : outcome FILE :=
  SPIEL_CHECK_TRUE (fopen (c_str filename) (c_str mode)).

Definition Close (f : FILE) : bool := (fclose f =? 0)%Z.

Definition Flush (f : FILE) : bool * FILE :=
  let '(r, f') := fflush f in ((r =? 0)%Z, f').

Definition Tell (f : FILE) : Z := ftell f.

Definition Seek (f : FILE) (offset : Z) : bool * FILE :=
  let '(r, f') := fseek f offset SEEK_SET in ((r =? 0)%Z, f').

(** [count] is an [int64]; the result of [fread] is stored in an [int]. Both
    the construction of [out] and [out.resize(read)] convert to [size_t], so
    a negative value asks for more than [max_size()] characters. *)
Definition Read (f : FILE) (count : Z) : outcome (list byte) * FILE :=
  if (count <? 0)%Z then (Throws length_error, f)
  else
    let '(got, f') := fread f (Z.to_nat count) in
    let out := got ++ replicate (Z.to_nat count - length got) x00 in
    let read := to_int (Z.of_nat (length got)) in
    if (read <? 0)%Z then (Throws length_error, f')
    else (Returns (take (Z.to_nat read) out), f').

Definition Write (f : FILE) (str : list byte) : bool * FILE :=
  let '(n, f') := fwrite f str in (n =? length str, f').

Definition Length (f : FILE) : Z * FILE :=
  let current := ftell f in
  let '(_, f1) := fseek f 0 SEEK_END in
  let length := ftell f1 in
  let '(_, f2) := fseek f1 current SEEK_SET in
  (length, f2).

Definition ReadContents (f : FILE) : outcome (list byte) * FILE :=
  let '(_, f1) := Seek f 0 in
  let '(len, f2) := Length f1 in
  Read f2 len.

(** [File::~File()] on a handle that still owns its stream. *)
Definition destructor (f : FILE) : FILE :=
  let '(_, f1) := Flush f in
  let _ := Close f1 in
  f1.

End File.

(** Opening the same file again for reading: the bytes stay, the position
    starts at 0. *)
Definition reopen (f : FILE) : FILE := mkFILE (contents f) 0 (room f).

(** Opening the same file again for update (["r+"]): the bytes stay, the
    position starts at 0, and the stream is read and written at its
    position. *)
Definition reopen_update (f : FILE) : FILE := mkFILE (contents f) 0 (room f).

(** A stream over the file of [f] opened for reading, and one opened for
    update, after a [Seek] to the offset [p]. *)
Definition reading_at (f : FILE) (p : Z) : FILE :=
  snd (File.Seek (reopen f) p).

Definition updating_at (f : FILE) (p : Z) : FILE :=
  snd (File.Seek (reopen_update f) p).

Definition ReadContentsFromFile (fopen : string -> string -> option FILE)
    (filename mode : string) : outcome (list byte) :=
  match File.new fopen filename mode with
  | Returns f => fst (File.ReadContents f)
  | Throws e => Throws e
  end.

(** The function is [void]: what comes back is the unit and the stream as the
    destructor leaves it. The result of [Write] is dropped. *)
Definition WriteContentsToFile (fopen : string -> string -> option FILE)
    (filename mode : string) (contents : list byte) : outcome (unit * FILE) :=
  match File.new fopen filename mode with
  | Returns f =>
      let '(_, f1) := File.Write f contents in
      Returns (tt, File.destructor f1)
  | Throws e => Throws e
  end.

(** ** The file system underneath *)

(** File type bits of [st_mode] (<sys/stat.h>, octal 0170000, 0040000, ...). *)
Definition S_IFMT : Z := 61440.
Definition S_IFSOCK : Z := 49152.
Definition S_IFLNK : Z := 40960.
Definition S_IFREG : Z := 32768.
Definition S_IFBLK : Z := 24576.
Definition S_IFDIR : Z := 16384.
Definition S_IFCHR : Z := 8192.
Definition S_IFIFO : Z := 4096.

(** The type tests of <sys/stat.h>: the type field compared as a whole. *)
Definition S_ISDIR (m : Z) : bool := (Z.land m S_IFMT =? S_IFDIR)%Z.
Definition S_ISREG (m : Z) : bool := (Z.land m S_IFMT =? S_IFREG)%Z.
Definition S_ISBLK (m : Z) : bool := (Z.land m S_IFMT =? S_IFBLK)%Z.
Definition S_ISSOCK (m : Z) : bool := (Z.land m S_IFMT =? S_IFSOCK)%Z.

(** The calls the directory operations make, over a state [FS] of the file
    system. Nothing is assumed about them here.
    - [stat]: the [st_mode] of the entry when the call returns 0;
    - [mkdir], [_mkdir], [rmdir], [unlink], [chmod]: the [int] returned and
      the state left;
    - [create_directories]: the [bool] returned, the value of [ec], and the
      state left;
    - [fs_exists], [fs_is_directory]: [std::filesystem::exists] and
      [is_directory] in their throwing overloads. *)
Class Syscalls (FS : Type) : Type := {
  stat : FS -> string -> option Z;
  mkdir : FS -> string -> Z -> Z * FS;
  _mkdir : FS -> string -> Z * FS;
  rmdir : FS -> string -> Z * FS;
  unlink : FS -> string -> Z * FS;
  chmod : FS -> string -> Z -> Z * FS;
  create_directories : FS -> string -> bool * Z * FS;
  fs_exists : FS -> string -> outcome bool;
  fs_is_directory : FS -> string -> outcome bool
}.

(** ** Directory operations *)

Section DirectoryOperations.

Context {FS : Type} `{Syscalls FS}.

Definition Exists (fs : FS) (path : string) : bool :=
  match stat fs (c_str path) with
  | Some _ => true
  | None => false
  end.

(** [stat(...) == 0 && info.st_mode & S_IFDIR] *)
Definition IsDirectory (fs : FS) (path : string) : bool :=
  match stat fs (c_str path) with
  | Some st_mode => negb (Z.land st_mode S_IFDIR =? 0)%Z
  | None => false
  end.

(** On [WIN32] the macro [mkdir(dir, mode)] is [_mkdir(dir)]. *)
Definition Mkdir (pl : platform) (fs : FS) (path : string) (mode : Z)
    : bool * FS :=
  let '(r, fs') := match pl with
                   | WIN32 => _mkdir fs (c_str path)
                   | POSIX => mkdir fs (c_str path) mode
                   end in
  ((r =? 0)%Z, fs').

(** The fallback loop of [Mkdirs]. [pos] is the loop variable, [None] being
    [npos]; each unit of [fuel] pays for one evaluation of the loop body.
    The result is [None] only when the fuel runs out. *)
Fixpoint Mkdirs_loop (fuel : nat) (pl : platform) (fs : FS) (path : string)
    (mode : Z) (pos : option nat) : option (bool * FS) :=
  match pos with
  | None => Some (true, fs)
  | Some p =>
      match fuel with
      | O => None
      | S fuel' =>
          let pos' := find_first_of path separators (p + 1) in
          let sub_path := substr0 path pos' in
          if empty sub_path then Mkdirs_loop fuel' pl fs path mode pos'
          else
            match stat fs (c_str sub_path) with
            | Some st_mode =>
                if negb (Z.land st_mode S_IFDIR =? 0)%Z
                then Mkdirs_loop fuel' pl fs path mode pos'
                else Some (false, fs)
            | None =>
                let '(ok, fs') := Mkdir pl fs sub_path mode in
                if ok then Mkdirs_loop fuel' pl fs' path mode pos'
                else Some (false, fs')
            end
      end
  end.

(** [Mkdirs]. The loop is given [size path + 1] units of fuel. *)
Definition Mkdirs (pl : platform) (fs : FS) (path : string) (mode : Z)
    : option (outcome bool * FS) :=
  if empty path then Some (Returns false, fs)
  else
    let '(created, ec, fs1) := create_directories fs path in
    if created then
      match pl with
      | POSIX => Some (Returns true, snd (chmod fs1 (c_str path) mode))
      | WIN32 => Some (Returns true, fs1)
      end
    else
      match (if (ec =? 0)%Z then fs_exists fs1 path else Returns false) with
      | Throws e => Some (Throws e, fs1)
      | Returns true => Some (fs_is_directory fs1 path, fs1)
      | Returns false =>
          let pos := internal.WindowsRootPrefixLength pl path in
          match Mkdirs_loop (S (size path)) pl fs1 path mode (Some pos) with
          | Some (b, fs2) => Some (Returns b, fs2)
          | None => None
          end
      end.

Definition Remove (fs : FS) (path : string) : bool * FS :=
  if IsDirectory fs path then
    let '(r, fs') := rmdir fs (c_str path) in ((r =? 0)%Z, fs')
  else
    let '(r, fs') := unlink fs (c_str path) in ((r =? 0)%Z, fs').

(** Two calls in a row, the second on the state the first one left. *)
Definition Mkdirs_twice (pl : platform) (fs : FS) (path : string) (mode : Z)
    : option ((outcome bool * outcome bool) * FS) :=
  match Mkdirs pl fs path mode with
  | Some (r1, fs1) =>
      match Mkdirs pl fs1 path mode with
      | Some (r2, fs2) => Some ((r1, r2), fs2)
      | None => None
      end
  | None => None
  end.

(** The target of [path] fully exists with mode [m]: [stat] finds it, every
    proper prefix that ends in front of a separator past the root prefix is a
    directory, and the library calls agree with [stat] on it and create
    nothing. *)
Definition fully_exists (pl : platform) (fs : FS) (path : string) (m : Z)
    : Prop :=
  stat fs (c_str path) = Some m
  /\ (forall i : nat,
        internal.WindowsRootPrefixLength pl path < i ->
        i < size path ->
        contains separators (at_ path i) = true ->
        exists mi, stat fs (c_str (prefix i path)) = Some mi
                   /\ S_ISDIR mi = true)
  /\ fst (fst (create_directories fs path)) = false
  /\ snd (create_directories fs path) = fs
  /\ fs_exists fs path = Returns true
  /\ fs_is_directory fs path = Returns (S_ISDIR m).

End DirectoryOperations.

(** ** Environment *)

(** The environment of the process: names to values. An unset name is
    absent; a name set to the empty string is present. *)
Definition getenv (env : gmap string string) (name : string) : option string :=
  env !! name.

Definition GetEnv (env : gmap string string) (key default_value : string)
    : string :=
  match getenv env (c_str key) with
  | Some val => val
  | None => default_value
  end.

(** The one definition of [GetTmpDir]; it is not under [#ifdef]. *)
Definition GetTmpDir (pl : platform) (env : gmap string string) : string :=
  GetEnv env "TMPDIR" "/tmp".

(** ** The environment as file_test.cc changes it *)

(** A name [setenv] and [unsetenv] accept: not empty and without ['=']. On
    any other name both fail with [EINVAL] and leave the environment as it
    is. *)
Definition valid_name (name : string) : bool :=
  negb (empty name) && negb (contains name "="%char).

(** [setenv(name, value, 1)] and [unsetenv(name)], as state changes: the
    tests drop the [int] returned. [name] and [value] are C strings. *)
Definition setenv (env : gmap string string) (name value : string)
    : gmap string string :=
  if valid_name name then <[name := value]> env else env.

Definition unsetenv (env : gmap string string) (name : string)
    : gmap string string :=
  if valid_name name then delete name env else env.

(** [struct PosixTmpdirRestorer]: the constructor records [TMPDIR], the
    destructor puts it back. *)
Module PosixTmpdirRestorer.

Record t : Type := mk {
  had_value : bool;
  original : string
}.

Definition new (env : gmap string string) : t :=
  match getenv env "TMPDIR" with
  | Some value => mk true value
  | None => mk false ""
  end.

Definition destructor (r : t) (env : gmap string string)
    : gmap string string :=
  if had_value r then setenv env "TMPDIR" (c_str (original r))
  else unsetenv env "TMPDIR".

End PosixTmpdirRestorer.

(** ** [NormalizeDirPathForTest] of file_test.cc *)

(** [path.back()] and [path.pop_back()], used on non-empty strings only. *)
Definition back (path : string) : ascii := at_ path (size path - 1).

Definition pop_back (path : string) : string := prefix (size path - 1) path.

(** A letter, [A] to [Z] or [a] to [z]. *)
Definition is_letter (c : ascii) : bool :=
  let n := nat_of_ascii c in
  ((65 <=? n) && (n <=? 90)) || ((97 <=? n) && (n <=? 122)).

(** The [while] loop; each unit of [fuel] pays for one evaluation of the
    body, and the result is [None] only when the fuel runs out. *)
Fixpoint NormalizeDirPathForTest_loop (fuel : nat) (path : string)
    : option string :=
  if (1 <? size path)
     && (Ascii.eqb (back path) backslash || Ascii.eqb (back path) slash)
  then
    match fuel with
    | O => None
    | S fuel' =>
        if (size path =? 3) && Ascii.eqb (at_ path 1) colon
           && is_letter (at_ path 0)
        then Some path
        else NormalizeDirPathForTest_loop fuel' (pop_back path)
    end
  else Some path.

(** The loop is given [size path] units of fuel. *)
Definition NormalizeDirPathForTest (path : string) : option string :=
  NormalizeDirPathForTest_loop (size path) path.

(** [path] is a bare drive root: a letter, a colon and one separator. *)
Definition drive_root (path : string) : bool :=
  (size path =? 3) && Ascii.eqb (at_ path 1) colon && is_letter (at_ path 0)
  && (Ascii.eqb (back path) backslash || Ascii.eqb (back path) slash).

(** ** A small file system to run the operations on *)

(** A table from path names to [st_mode], for the examples below: names are
    looked up as they are written, [mkdir] adds a directory entry under a new
    name, and the recursive creation of [std::filesystem] is not supported
    (it reports [ENOSYS]), so that [Mkdirs] has to take its fallback. *)
Module TableFS.

Definition ENOTDIR : Z := 20.
Definition ENOSYS : Z := 38.

Definition lookup_mode (fs : gmap string Z) (p : string) : option Z := fs !! p.

Definition add_directory (fs : gmap string Z) (p : string) (mode : Z)
    : Z * gmap string Z :=
  match lookup_mode fs p with
  | Some _ => ((-1)%Z, fs)
  | None => (0%Z, <[p := Z.lor S_IFDIR mode]> fs)
  end.

Definition remove_entry (want_dir : bool) (fs : gmap string Z) (p : string)
    : Z * gmap string Z :=
  match lookup_mode fs p with
  | Some m => if Bool.eqb (S_ISDIR m) want_dir then (0%Z, delete p fs)
              else ((-1)%Z, fs)
  | None => ((-1)%Z, fs)
  end.

Definition change_mode (fs : gmap string Z) (p : string) (mode : Z)
    : Z * gmap string Z :=
  match lookup_mode fs p with
  | Some m => (0%Z, <[p := Z.lor (Z.land m S_IFMT) mode]> fs)
  | None => ((-1)%Z, fs)
  end.

Definition unsupported_create (fs : gmap string Z) (p : string)
    : bool * Z * gmap string Z :=
  match lookup_mode fs p with
  | Some m => (false, if S_ISDIR m then 0%Z else ENOTDIR, fs)
  | None => (false, ENOSYS, fs)
  end.

Definition calls : Syscalls (gmap string Z) := {|
  stat := lookup_mode;
  mkdir := add_directory;
  _mkdir := fun fs p => add_directory fs p 511;
  rmdir := remove_entry true;
  unlink := remove_entry false;
  chmod := change_mode;
  create_directories := unsupported_create;
  fs_exists := fun fs p => Returns (bool_decide (is_Some (lookup_mode fs p)));
  fs_is_directory := fun fs p =>
    Returns (match lookup_mode fs p with Some m => S_ISDIR m | None => false end)
|}.

(** [/tmp] (mode 041777) with a directory (040755) and a regular file
    (0100644) in it, and [/dev] with a block device (060660). *)
Definition sample : gmap string Z :=
  <["/tmp" := 17407%Z]>
  (<["/tmp/a" := 16877%Z]>
  (<["/tmp/f" := 33188%Z]>
  (<["/dev" := 16877%Z]>
  (<["/dev/sda" := 25008%Z]> ∅)))).

End TableFS.

(** ** Sample streams *)

(** An [fopen] that hands out a new file on a device with room for three
    bytes, whatever the name. *)
Definition small_device (filename mode : string) : option FILE :=
  Some (fresh 3).

(** The line file_test.cc writes, and the stream after writing it to a new
    file. *)
Definition expected : list byte := list_byte_of_string "hello world 42".

Definition written : FILE := snd (File.Write (fresh 4096) expected).

(** A string of 2^31 zero bytes (2 GiB). *)
Definition two_GiB_of_zeros : list byte := replicate (Z.to_nat (2 ^ 31)) x00.

(** ** Predicates of the statements *)

Definition is_separator (c : ascii) : bool := contains separators c.

(** No character of [s] is a separator. *)
Fixpoint no_separator (s : string) : bool :=
  match s with
  | EmptyString => true
  | String c s' => negb (is_separator c) && no_separator s'
  end.

(** [s] begins with a separator. *)
Definition starts_with_separator (s : string) : bool :=
  match s with
  | EmptyString => false
  | String c _ => is_separator c
  end.

(** The two shapes the classifier recognises on [WIN32]: any character
    followed by a colon, and two leading backslashes. *)
Definition drive_form (path : string) : Prop :=
  exists x rest, path = String x (String colon rest).

Definition unc_form (path : string) : Prop :=
  exists rest, path = String backslash (String backslash rest).

(** The same two shapes in the words of the specification: a drive letter
    followed by a colon, and a leading double separator. *)
Definition drive_letter_form (path : string) : Prop :=
  exists x rest, path = String x (String colon rest) /\ is_letter x = true.

Definition leading_double_separator (path : string) : Prop :=
  exists c c' rest,
    path = String c (String c' rest)
    /\ is_separator c = true /\ is_separator c' = true.

(* ===================================================================== *)
(** * Part II: properties                                                 *)
(* ===================================================================== *)

(** ** Strings *)

Section StringFacts.

Implicit Types (s t chars : string) (c : ascii) (i k n pos : nat).

Lemma append_nil t : ("" ++ t)%string = t.
Proof. reflexivity. Qed.

Lemma append_cons c s t : (String c s ++ t)%string = String c (s ++ t)%string.
Proof. reflexivity. Qed.

Lemma size_app s t : size (s ++ t)%string = size s + size t.
Proof.
  induction s as [|c s IH]; [reflexivity|].
  rewrite append_cons. simpl. now rewrite IH.
Qed.

Lemma empty_size s : empty s = true <-> size s = 0.
Proof. destruct s; simpl; split; congruence. Qed.

Lemma at_cons_S c s i : at_ (String c s) (S i) = at_ s i.
Proof. reflexivity. Qed.

Lemma size_prefix n s : size (prefix n s) = Nat.min n (size s).
Proof.
  revert s; induction n as [|n IH]; intros [|c s]; simpl; try reflexivity.
  now rewrite IH.
Qed.

Lemma prefix_all n s : size s <= n -> prefix n s = s.
Proof.
  revert s; induction n as [|n IH]; intros [|c s]; simpl; intros Hn;
    try reflexivity; try lia.
  f_equal. apply IH. lia.
Qed.

(** A successful search lands on a character of [chars], at or after the
    starting position and inside the string. *)
Lemma find_first_of_Some s chars pos q :
  find_first_of s chars pos = Some q ->
  pos <= q /\ q < size s /\ contains chars (at_ s q) = true.
Proof.
  revert pos q; induction s as [|c s IH]; intros pos q; simpl; [discriminate|].
  destruct pos as [|pos].
  - destruct (contains chars c) eqn:Hc.
    + intros [= <-]. repeat split; [lia | lia | exact Hc].
    + destruct (find_first_of s chars 0) as [r|] eqn:Hr; simpl; [|discriminate].
      intros [= <-]. destruct (IH _ _ Hr) as (? & ? & ?).
      repeat split; [lia | lia | assumption].
  - destruct (find_first_of s chars pos) as [r|] eqn:Hr; simpl; [|discriminate].
    intros [= <-]. destruct (IH _ _ Hr) as (? & ? & ?).
    repeat split; [lia | lia | assumption].
Qed.

(** Nothing between the starting position and the result matches. *)
Lemma find_first_of_least s chars pos q i :
  find_first_of s chars pos = Some q ->
  pos <= i -> i < q -> contains chars (at_ s i) = false.
Proof.
  revert pos q i; induction s as [|c s IH]; intros pos q i; simpl; [discriminate|].
  destruct pos as [|pos].
  - destruct (contains chars c) eqn:Hc.
    + intros [= <-]; lia.
    + destruct (find_first_of s chars 0) as [r|] eqn:Hr; simpl; [|discriminate].
      intros [= <-] _ Hi. destruct i as [|i]; [exact Hc|].
      rewrite at_cons_S. apply (IH 0 r); [assumption | lia | lia].
  - destruct (find_first_of s chars pos) as [r|] eqn:Hr; simpl; [|discriminate].
    intros [= <-] Hp Hi. destruct i as [|i]; [lia|].
    rewrite at_cons_S. apply (IH pos r); [assumption | lia | lia].
Qed.

(** A failed search means no match from the starting position on. *)
Lemma find_first_of_None s chars pos i :
  find_first_of s chars pos = None ->
  pos <= i -> i < size s -> contains chars (at_ s i) = false.
Proof.
  revert pos i; induction s as [|c s IH]; intros pos i; simpl; [lia|].
  destruct pos as [|pos].
  - destruct (contains chars c) eqn:Hc; [discriminate|].
    destruct (find_first_of s chars 0) as [r|] eqn:Hr; simpl; [discriminate|].
    intros _ _ Hi. destruct i as [|i]; [exact Hc|].
    rewrite at_cons_S. apply (IH 0); [assumption | lia | lia].
  - destruct (find_first_of s chars pos) as [r|] eqn:Hr; simpl; [discriminate|].
    intros _ Hp Hi. destruct i as [|i]; [lia|].
    rewrite at_cons_S. apply (IH pos); [assumption | lia | lia].
Qed.

(** Past the end there is nothing to find. *)
Lemma find_first_of_past_end s chars pos :
  size s <= pos -> find_first_of s chars pos = None.
Proof.
  intros Hp. destruct (find_first_of s chars pos) as [q|] eqn:Hq; [|reflexivity].
  apply find_first_of_Some in Hq. lia.
Qed.

(** Searching behind a prefix is searching the rest. *)
Lemma find_first_of_app_skip s t chars k :
  find_first_of (s ++ t)%string chars (size s + k)
  = option_map (Nat.add (size s)) (find_first_of t chars k).
Proof.
  induction s as [|c s IH].
  - rewrite append_nil. simpl. destruct (find_first_of t chars k); reflexivity.
  - rewrite append_cons. simpl. rewrite IH.
    destruct (find_first_of t chars k); reflexivity.
Qed.

(** A prefix without characters of [separators] is skipped by the search. *)
Lemma find_first_of_no_separator s t :
  no_separator s = true ->
  find_first_of (s ++ t)%string separators 0
  = option_map (Nat.add (size s)) (find_first_of t separators 0).
Proof.
  induction s as [|c s IH].
  - intros _. rewrite append_nil. simpl.
    destruct (find_first_of t separators 0); reflexivity.
  - intros [Hc Hs]%andb_prop. unfold is_separator in Hc.
    apply negb_true_iff in Hc. rewrite append_cons.
    change (find_first_of (String c (s ++ t)%string) separators 0)
      with (if contains separators c then Some 0
            else option_map S (find_first_of (s ++ t)%string separators 0)).
    rewrite Hc, (IH Hs). simpl.
    destruct (find_first_of t separators 0); reflexivity.
Qed.

Lemma find_first_of_starts chars c t :
  contains chars c = true -> find_first_of (String c t) chars 0 = Some 0.
Proof. intros Hc; simpl. now rewrite Hc. Qed.

Example find_first_of_examples :
  find_first_of "a/b\c" separators 0 = Some 1
  /\ find_first_of "a/b\c" separators 2 = Some 3
  /\ find_first_of "a/b\c" separators 4 = None
  /\ find_first_of "a/b\c" separators 9 = None
  /\ find_first_of "/a" separators 0 = Some 0.
Proof. repeat split. Qed.

Example substr0_examples :
  substr0 "/tmp/a" (Some 4) = "/tmp"
  /\ substr0 "/tmp/a" None = "/tmp/a"
  /\ substr0 "/tmp/a" (Some 9) = "/tmp/a".
Proof. repeat split. Qed.

End StringFacts.

(** ** The path classifier *)

Section Classifier.

Import internal.

Implicit Types (path server share rest tail : string) (x c : ascii).

Lemma WindowsRootPrefixLength_posix path :
  WindowsRootPrefixLength POSIX path = 0.
Proof. reflexivity. Qed.

Lemma is_separator_cases c :
  is_separator c = Ascii.eqb c backslash || Ascii.eqb c slash.
Proof.
  unfold is_separator, separators; simpl.
  now rewrite orb_false_r.
Qed.

Lemma WindowsRootPrefixLength_drive x rest :
  WindowsRootPrefixLength WIN32 (String x (String colon rest))
  = if starts_with_separator rest then 3 else 2.
Proof.
  unfold WindowsRootPrefixLength, WindowsRootPrefixLengthImpl.
  destruct rest as [|c rest]; [reflexivity|].
  cbn -[is_separator]. rewrite is_separator_cases.
  now destruct (Ascii.eqb c backslash || Ascii.eqb c slash).
Qed.

(** After two backslashes, the result is read off two searches in the rest. *)
Lemma WindowsRootPrefixLength_unc tail :
  WindowsRootPrefixLength WIN32 (String backslash (String backslash tail))
  = match find_first_of tail separators 0 with
    | None => 2 + size tail
    | Some p =>
        match find_first_of tail separators (p + 1) with
        | None => 2 + size tail
        | Some q => 2 + q
        end
    end.
Proof.
  unfold WindowsRootPrefixLength, WindowsRootPrefixLengthImpl.
  change (find_first_of (String backslash (String backslash tail)) separators 2)
    with (option_map S (option_map S (find_first_of tail separators 0))).
  cbn [size String.length Nat.ltb Nat.leb at_ String.get andb].
  change (Ascii.eqb backslash colon) with false.
  change (Ascii.eqb backslash backslash) with true.
  cbn [andb].
  destruct (find_first_of tail separators 0) as [p|]; [|reflexivity].
  cbn [option_map].
  change (find_first_of (String backslash (String backslash tail)) separators
            (S (S p) + 1))
    with (option_map S (option_map S (find_first_of tail separators (p + 1)))).
  now destruct (find_first_of tail separators (p + 1)).
Qed.

Lemma find_first_of_none_of s :
  no_separator s = true -> find_first_of s separators 0 = None.
Proof.
  induction s as [|c s IH]; [reflexivity|].
  intros [Hc Hs]%andb_prop. apply negb_true_iff in Hc.
  unfold is_separator in Hc.
  change (find_first_of (String c s) separators 0)
    with (if contains separators c then Some 0
          else option_map S (find_first_of s separators 0)).
  now rewrite Hc, (IH Hs).
Qed.

(** Only the server is there. *)
Lemma WindowsRootPrefixLength_unc_server server :
  no_separator server = true ->
  WindowsRootPrefixLength WIN32 (String backslash (String backslash server))
  = size (String backslash (String backslash server)).
Proof.
  intros Hs. rewrite WindowsRootPrefixLength_unc.
  now rewrite (find_first_of_none_of _ Hs).
Qed.

Lemma find_first_of_server server c rest :
  no_separator server = true -> is_separator c = true ->
  find_first_of (server ++ String c rest)%string separators 0
  = Some (size server).
Proof.
  intros Hs Hc. rewrite (find_first_of_no_separator _ _ Hs).
  rewrite (find_first_of_starts _ _ _ Hc). simpl. f_equal. lia.
Qed.

Lemma find_first_of_share server c rest :
  find_first_of (server ++ String c rest)%string separators (size server + 1)
  = option_map (fun q => size server + S q) (find_first_of rest separators 0).
Proof.
  rewrite find_first_of_app_skip.
  change (find_first_of (String c rest) separators 1)
    with (option_map S (find_first_of rest separators 0)).
  now destruct (find_first_of rest separators 0).
Qed.

(** The server is closed by a separator, the share is not. *)
Lemma WindowsRootPrefixLength_unc_share server c share :
  no_separator server = true -> is_separator c = true ->
  no_separator share = true ->
  let path := String backslash
                (String backslash (server ++ String c share)%string) in
  WindowsRootPrefixLength WIN32 path = size path.
Proof.
  intros Hs Hc Hsh path. subst path. rewrite WindowsRootPrefixLength_unc.
  rewrite (find_first_of_server _ _ _ Hs Hc), find_first_of_share.
  now rewrite (find_first_of_none_of _ Hsh).
Qed.

(** Both the server and the share are closed by a separator: the prefix ends
    in front of the second one. *)
Lemma WindowsRootPrefixLength_unc_full server c share c' rest :
  no_separator server = true -> is_separator c = true ->
  no_separator share = true -> is_separator c' = true ->
  WindowsRootPrefixLength WIN32
    (String backslash
       (String backslash
          (server ++ String c (share ++ String c' rest))%string))
  = 2 + size server + 1 + size share.
Proof.
  intros Hs Hc Hsh Hc'. rewrite WindowsRootPrefixLength_unc.
  rewrite (find_first_of_server _ _ _ Hs Hc), find_first_of_share.
  rewrite (find_first_of_server _ _ _ Hsh Hc'). simpl. lia.
Qed.

Lemma WindowsRootPrefixLength_other path :
  ~ drive_form path -> ~ unc_form path ->
  WindowsRootPrefixLength WIN32 path = 0.
Proof.
  intros Hd Hu. unfold WindowsRootPrefixLength, WindowsRootPrefixLengthImpl.
  destruct path as [|a [|b rest]]; [reflexivity | reflexivity |].
  cbn [size String.length Nat.ltb Nat.leb at_ String.get andb].
  destruct (Ascii.eqb b colon) eqn:Hb.
  - apply Ascii.eqb_eq in Hb. subst b. exfalso. apply Hd. now exists a, rest.
  - destruct (Ascii.eqb a backslash) eqn:Ha; [|reflexivity].
    destruct (Ascii.eqb b backslash) eqn:Hb'; [|reflexivity].
    apply Ascii.eqb_eq in Ha, Hb'. subst a b.
    exfalso. apply Hu. now exists rest.
Qed.

End Classifier.

(** ** Streams and the [File] handle *)

Section Streams.

Import File.

Implicit Types (f : FILE) (s str : list byte) (r : nat) (z : Z).

Lemma to_int_small z : (0 <= z < 2 ^ 31)%Z -> to_int z = z.
Proof.
  intros Hz. unfold to_int. rewrite Z.mod_small; lia.
Qed.

Lemma to_int_wraps z : (2 ^ 31 <= z < 2 ^ 32)%Z -> to_int z = (z - 2 ^ 32)%Z.
Proof.
  intros Hz. unfold to_int.
  replace (z + 2 ^ 31)%Z with ((z - 2 ^ 31) + 1 * 2 ^ 32)%Z by lia.
  rewrite Z.mod_add by lia. rewrite Z.mod_small; lia.
Qed.

(** [Length] returns the number of bytes of the file and hands the stream
    back as it found it. *)
Lemma Length_eq f : Length f = (Z.of_nat (length (contents f)), f).
Proof.
  destruct f as [c p r]. unfold Length, fseek, ftell. cbn [contents position room].
  destruct (Z.ltb_spec (Z.of_nat (length c) + 0) 0) as [H1|H1]; [lia|].
  cbn [position contents room].
  destruct (Z.ltb_spec (0 + Z.of_nat p) 0) as [H2|H2]; [lia|].
  f_equal; [lia|]. f_equal. lia.
Qed.

Lemma Seek_0 f : Seek f 0 = (true, mkFILE (contents f) 0 (room f)).
Proof. reflexivity. Qed.

(** What [ReadContents] computes, on any stream. *)
Lemma ReadContents_eq f :
  let n := Z.of_nat (length (contents f)) in
  ReadContents f
  = (if (to_int n <? 0)%Z then Throws length_error
     else Returns (take (Z.to_nat (to_int n)) (contents f)),
     mkFILE (contents f) (length (contents f)) (room f)).
Proof.
  intros n. unfold ReadContents. rewrite Seek_0, Length_eq.
  cbn [contents]. fold n. unfold Read.
  destruct (Z.ltb_spec n 0) as [Hn|Hn]; [lia|].
  unfold fread. cbn [contents position room].
  replace (Z.to_nat n) with (length (contents f)) by lia.
  rewrite drop_0, firstn_all, Nat.sub_diag. cbn [replicate].
  rewrite app_nil_r. fold n.
  now destruct (to_int n <? 0)%Z.
Qed.

(** Below 2 GiB the whole file comes back. *)
Lemma ReadContents_small f :
  (Z.of_nat (length (contents f)) < 2 ^ 31)%Z ->
  fst (ReadContents f) = Returns (contents f).
Proof.
  intros Hn. rewrite ReadContents_eq. cbn [fst].
  rewrite to_int_small by lia.
  destruct (Z.ltb_spec (Z.of_nat (length (contents f))) 0) as [H0|H0]; [lia|].
  now rewrite Nat2Z.id, firstn_all.
Qed.

(** From 2 GiB to 4 GiB the count stored in [int read] is negative. *)
Lemma ReadContents_wraps f :
  (2 ^ 31 <= Z.of_nat (length (contents f)) < 2 ^ 32)%Z ->
  fst (ReadContents f) = Throws length_error.
Proof.
  intros Hn. rewrite ReadContents_eq. cbn [fst].
  rewrite to_int_wraps by lia.
  destruct (Z.ltb_spec (Z.of_nat (length (contents f)) - 2 ^ 32) 0) as [H0|H0];
    [reflexivity | lia].
Qed.

(** Writing to a new file: as many bytes as there is room for. *)
Lemma Write_fresh s r :
  Write (fresh r) s
  = (length s <=? r,
     mkFILE (take r s) (Nat.min (length s) r) (r - Nat.min (length s) r)).
Proof.
  unfold Write, fwrite, fresh. cbn [contents position room length].
  rewrite Nat.sub_0_r, Nat.add_0_l.
  destruct (Nat.min (length s) r =? 0) eqn:Hn.
  - apply Nat.eqb_eq in Hn. rewrite Hn.
    destruct s as [|b s]; [now destruct r|].
    cbn [length] in *. assert (r = 0) by lia. subst r. reflexivity.
  - apply Nat.eqb_neq in Hn.
    cbn [replicate take drop app]. rewrite drop_nil, app_nil_r.
    rewrite Nat.sub_0_r, Nat.add_0_l.
    destruct (Nat.le_gt_cases (length s) r) as [Hle|Hgt].
    + rewrite Nat.min_l by lia. rewrite !firstn_all2 by lia.
      rewrite Nat.eqb_refl.
      now rewrite (proj2 (Nat.leb_le _ _) Hle).
    + rewrite Nat.min_r by lia.
      rewrite (proj2 (Nat.eqb_neq _ _)) by lia.
      now rewrite (proj2 (Nat.leb_gt _ _) Hgt).
Qed.

Lemma Write_fresh_complete s r :
  fst (Write (fresh r) s) = true ->
  snd (Write (fresh r) s) = mkFILE s (length s) (r - length s).
Proof.
  rewrite Write_fresh. cbn [fst snd]. intros Hle%Nat.leb_le.
  rewrite Nat.min_l by lia. now rewrite firstn_all2 by lia.
Qed.

(** [Write] returns false exactly when [fwrite] took fewer bytes than given. *)
Lemma Write_false_short f str :
  fst (Write f str) = false -> fst (fwrite f str) < length str.
Proof.
  unfold Write. destruct (fwrite f str) as [n f'] eqn:Hw. cbn [fst].
  intros Hn%Nat.eqb_neq.
  enough (n <= length str) by lia.
  unfold fwrite in Hw.
  destruct (Nat.min _ _ =? 0) eqn:H0; inversion Hw; subst; lia.
Qed.

(** [WriteContentsToFile] on a file that opens: the same return whatever
    [Write] reported. *)
Lemma WriteContentsToFile_opened fopen filename mode str f :
  fopen (c_str filename) (c_str mode) = Some f ->
  WriteContentsToFile fopen filename mode str
  = Returns (tt, snd (Write f str)).
Proof.
  intros Ho. unfold WriteContentsToFile, new. rewrite Ho. cbn [SPIEL_CHECK_TRUE].
  destruct (Write f str) as [ok f1]. reflexivity.
Qed.

End Streams.

(** ** Directory operations *)

Section FileTypeBits.

Implicit Types (m : Z).

(** The directory bit lies inside the type field. *)
Lemma land_S_IFDIR m : Z.land m S_IFDIR = Z.land (Z.land m S_IFMT) S_IFDIR.
Proof. rewrite <- Z.land_assoc. reflexivity. Qed.

Lemma S_ISDIR_bit m :
  S_ISDIR m = true -> negb (Z.land m S_IFDIR =? 0)%Z = true.
Proof.
  unfold S_ISDIR. intros Hm%Z.eqb_eq. rewrite land_S_IFDIR, Hm. reflexivity.
Qed.

Lemma S_ISREG_bit m :
  S_ISREG m = true -> negb (Z.land m S_IFDIR =? 0)%Z = false.
Proof.
  unfold S_ISREG. intros Hm%Z.eqb_eq. rewrite land_S_IFDIR, Hm. reflexivity.
Qed.

(** Block devices and sockets carry the directory bit as well. *)
Lemma S_ISBLK_bit m :
  S_ISBLK m = true -> negb (Z.land m S_IFDIR =? 0)%Z = true.
Proof.
  unfold S_ISBLK. intros Hm%Z.eqb_eq. rewrite land_S_IFDIR, Hm. reflexivity.
Qed.

Lemma S_ISSOCK_bit m :
  S_ISSOCK m = true -> negb (Z.land m S_IFDIR =? 0)%Z = true.
Proof.
  unfold S_ISSOCK. intros Hm%Z.eqb_eq. rewrite land_S_IFDIR, Hm. reflexivity.
Qed.

Lemma S_ISREG_not_dir m : S_ISREG m = true -> S_ISDIR m = false.
Proof.
  unfold S_ISREG, S_ISDIR. intros Hm%Z.eqb_eq. rewrite Hm. reflexivity.
Qed.

Lemma S_ISBLK_not_dir m : S_ISBLK m = true -> S_ISDIR m = false.
Proof.
  unfold S_ISBLK, S_ISDIR. intros Hm%Z.eqb_eq. rewrite Hm. reflexivity.
Qed.

End FileTypeBits.

Section Directories.

Context {FS : Type} `{Syscalls FS}.

Implicit Types (fs : FS) (path : string) (mode m : Z) (pl : platform)
  (p q fuel : nat).

Lemma IsDirectory_stat fs path :
  IsDirectory fs path = true
  <-> exists st_mode, stat fs (c_str path) = Some st_mode
                      /\ Z.land st_mode S_IFDIR <> 0%Z.
Proof.
  unfold IsDirectory. destruct (stat fs (c_str path)) as [st_mode|].
  - rewrite negb_true_iff, Z.eqb_neq. split.
    + intros Hb. now exists st_mode.
    + now intros (? & [= <-] & Hb).
  - split; [discriminate | now intros (? & ? & _)].
Qed.

Lemma IsDirectory_absent fs path :
  stat fs (c_str path) = None -> IsDirectory fs path = false.
Proof. intros Hs. unfold IsDirectory. now rewrite Hs. Qed.

Lemma IsDirectory_directory fs path m :
  stat fs (c_str path) = Some m -> S_ISDIR m = true ->
  IsDirectory fs path = true.
Proof. intros Hs Hd. unfold IsDirectory. now rewrite Hs, (S_ISDIR_bit _ Hd). Qed.

Lemma IsDirectory_regular_file fs path m :
  stat fs (c_str path) = Some m -> S_ISREG m = true ->
  IsDirectory fs path = false.
Proof. intros Hs Hr. unfold IsDirectory. now rewrite Hs, (S_ISREG_bit _ Hr). Qed.

(** Whatever the file system, a block device or a socket passes for a
    directory. *)
Lemma IsDirectory_block_or_socket fs path m :
  stat fs (c_str path) = Some m ->
  S_ISBLK m = true \/ S_ISSOCK m = true ->
  IsDirectory fs path = true.
Proof.
  intros Hs Hty. unfold IsDirectory. rewrite Hs.
  destruct Hty as [Hb|Hk]; [now apply S_ISBLK_bit | now apply S_ISSOCK_bit].
Qed.

(** One step of the search moves strictly forward and stays inside. *)
Lemma separator_search_advances path p q :
  find_first_of path separators (p + 1) = Some q -> p < q /\ q < size path.
Proof. intros Hq. apply find_first_of_Some in Hq. lia. Qed.

(** With more fuel than characters left the loop comes to an end. *)
Lemma Mkdirs_loop_returns fuel pl fs path mode pos :
  match pos with Some p => size path - p < fuel | None => True end ->
  exists r, Mkdirs_loop fuel pl fs path mode pos = Some r.
Proof.
  revert fs pos. induction fuel as [|fuel IH]; intros fs [p|] Hf;
    [lia | now eexists | | now eexists].
  cbn [Mkdirs_loop].
  assert (Hnext : match find_first_of path separators (p + 1) with
                  | Some q => size path - q < fuel
                  | None => True
                  end).
  { destruct (find_first_of path separators (p + 1)) as [q|] eqn:Hq; [|exact I].
    apply separator_search_advances in Hq. lia. }
  destruct (empty _); [now apply IH|].
  destruct (stat fs _) as [st_mode|].
  - destruct (negb _); [now apply IH | now eexists].
  - destruct (Mkdir pl fs _ mode) as [[|] fs']; [now apply IH | now eexists].
Qed.

(** More fuel does not change a result. *)
Lemma Mkdirs_loop_fuel fuel fuel' pl fs path mode pos r :
  fuel <= fuel' ->
  Mkdirs_loop fuel pl fs path mode pos = Some r ->
  Mkdirs_loop fuel' pl fs path mode pos = Some r.
Proof.
  revert fuel' fs pos. induction fuel as [|fuel IH]; intros fuel' fs [p|] Hle;
    try (destruct fuel'; cbn [Mkdirs_loop]; congruence).
  destruct fuel' as [|fuel']; cbn [Mkdirs_loop]; [lia|].
  assert (Hle' : fuel <= fuel') by lia.
  destruct (empty _); [now apply IH|].
  destruct (stat fs _) as [st_mode|].
  - destruct (negb _); [now apply IH | congruence].
  - destruct (Mkdir pl fs _ mode) as [[|] fs']; [now apply IH | congruence].
Qed.

Lemma Mkdirs_returns pl fs path mode :
  exists r, Mkdirs pl fs path mode = Some r.
Proof.
  unfold Mkdirs. destruct (empty path); [now eexists|].
  destruct (create_directories fs path) as [[created ec] fs1].
  destruct created; [destruct pl; now eexists|].
  destruct (if (ec =? 0)%Z then fs_exists fs1 path else Returns false)
    as [[|]|e]; try (now eexists).
  destruct (Mkdirs_loop_returns (S (size path)) pl fs1 path mode
              (Some (internal.WindowsRootPrefixLength pl path))) as [[b fs2] Hr];
    [lia|].
  rewrite Hr. now eexists.
Qed.

Lemma prefix_not_empty path q :
  0 < q -> q < size path -> empty (prefix q path) = false.
Proof.
  intros H0 Hq. destruct (empty (prefix q path)) eqn:He; [|reflexivity].
  apply empty_size in He. rewrite size_prefix in He. lia.
Qed.

(** The loop on a path whose prefixes past [p0] are all directories: nothing
    is created, and the answer is the directory bit of the target. *)
Lemma Mkdirs_loop_existing fuel pl fs path mode m p0 p :
  empty path = false ->
  stat fs (c_str path) = Some m ->
  (forall i, p0 < i -> i < size path ->
     contains separators (at_ path i) = true ->
     exists mi, stat fs (c_str (prefix i path)) = Some mi
                /\ S_ISDIR mi = true) ->
  p0 <= p -> size path - p < fuel ->
  Mkdirs_loop fuel pl fs path mode (Some p)
  = Some (negb (Z.land m S_IFDIR =? 0)%Z, fs).
Proof.
  intros Hne Hm Hpre. revert p.
  induction fuel as [|fuel IH]; intros p Hp Hf; [lia|].
  cbn [Mkdirs_loop].
  destruct (find_first_of path separators (p + 1)) as [q|] eqn:Hq;
    cbn [substr0].
  - destruct (find_first_of_Some _ _ _ _ Hq) as (Hpq & Hqs & Hsep).
    rewrite prefix_not_empty by lia.
    destruct (Hpre q) as (mi & Hmi & Hdir); [lia | lia | exact Hsep |].
    rewrite Hmi, (S_ISDIR_bit _ Hdir).
    apply IH; lia.
  - rewrite Hne, Hm.
    destruct (negb (Z.land m S_IFDIR =? 0)%Z); [|reflexivity].
    now destruct fuel.
Qed.

(** [Mkdirs] on a target that fully exists: the state is left as it is and
    the answer says whether the target is a directory, for a directory and
    for a regular file. *)
Lemma Mkdirs_on_existing pl fs path mode m :
  empty path = false ->
  fully_exists pl fs path m ->
  S_ISDIR m = true \/ S_ISREG m = true ->
  Mkdirs pl fs path mode = Some (Returns (S_ISDIR m), fs).
Proof.
  intros Hne (Hm & Hpre & Hcr & Hst & Hex & Hisd) Hty.
  unfold Mkdirs. rewrite Hne.
  destruct (create_directories fs path) as [[created ec] fs1].
  cbn [fst snd] in Hcr, Hst. subst created fs1.
  destruct (ec =? 0)%Z.
  - now rewrite Hex, Hisd.
  - rewrite (Mkdirs_loop_existing _ pl fs path mode m
               (internal.WindowsRootPrefixLength pl path)) by (auto; lia).
    destruct Hty as [Hd|Hr].
    + now rewrite (S_ISDIR_bit _ Hd), Hd.
    + now rewrite (S_ISREG_bit _ Hr), (S_ISREG_not_dir _ Hr).
Qed.

End Directories.

(** ** Environment *)

Section Environment.

Implicit Types (env : gmap string string) (key default_value val : string)
  (pl : platform).

Lemma GetEnv_unset env key default_value :
  getenv env (c_str key) = None -> GetEnv env key default_value = default_value.
Proof. intros Hg. unfold GetEnv. now rewrite Hg. Qed.

Lemma GetEnv_set env key default_value val :
  getenv env (c_str key) = Some val -> GetEnv env key default_value = val.
Proof. intros Hg. unfold GetEnv. now rewrite Hg. Qed.

(** [GetTmpDir] reads [TMPDIR] and nothing else, on either platform. *)
Lemma GetTmpDir_eq pl env :
  GetTmpDir pl env
  = match getenv env "TMPDIR" with Some val => val | None => "/tmp" end.
Proof. reflexivity. Qed.

Lemma GetTmpDir_only_TMPDIR pl pl' env env' :
  getenv env "TMPDIR" = getenv env' "TMPDIR" ->
  GetTmpDir pl env = GetTmpDir pl' env'.
Proof. intros He. now rewrite !GetTmpDir_eq, He. Qed.

End Environment.

(** ** The scenario of file_test.cc, run on the model *)

Section TestFile.

Import File.

Example test_write :
  Tell (fresh 4096) = 0%Z
  /\ fst (Write (fresh 4096) expected) = true
  /\ Tell written = Z.of_nat (length expected)
  /\ fst (Length written) = Z.of_nat (length expected).
Proof. repeat split. Qed.

Example test_read :
  Tell (reopen written) = 0%Z
  /\ fst (ReadContents (reopen written)) = Returns expected
  /\ Tell (snd (ReadContents (reopen written))) = Z.of_nat (length expected)
  /\ fst (Read (snd (Seek (snd (ReadContents (reopen written))) 0)) 6)
     = Returns (list_byte_of_string "hello ")
  /\ fst (Read (snd (Read (snd (Seek (snd (ReadContents (reopen written))) 0))
                       6)) 6)
     = Returns (list_byte_of_string "world ").
Proof. repeat split. Qed.

Example test_IsDirectory :
  IsDirectory (H := TableFS.calls) TableFS.sample "/tmp" = true
  /\ IsDirectory (H := TableFS.calls) TableFS.sample "/tmp/f" = false
  /\ IsDirectory (H := TableFS.calls) TableFS.sample "/tmp/a/1" = false
  /\ Exists (H := TableFS.calls) TableFS.sample "/tmp/f" = true
  /\ Exists (H := TableFS.calls) TableFS.sample "/tmp/a/1" = false.
Proof. repeat split. Qed.

Example test_Mkdir :
  fst (Mkdir (H := TableFS.calls) POSIX TableFS.sample "/tmp/b" 493) = true
  /\ fst (Mkdir (H := TableFS.calls) POSIX
            (snd (Mkdir (H := TableFS.calls) POSIX TableFS.sample "/tmp/b" 493))
            "/tmp/b" 493) = false.
Proof. repeat split. Qed.

Example test_Mkdirs :
  exists fs,
    Mkdirs (H := TableFS.calls) POSIX TableFS.sample "/tmp/a/1/2/3" 493
    = Some (Returns true, fs)
    /\ IsDirectory (H := TableFS.calls) fs "/tmp/a/1" = true
    /\ IsDirectory (H := TableFS.calls) fs "/tmp/a/1/2" = true
    /\ IsDirectory (H := TableFS.calls) fs "/tmp/a/1/2/3" = true.
Proof. eexists. repeat split. Qed.

Example test_Mkdirs_empty :
  Mkdirs (H := TableFS.calls) POSIX TableFS.sample "" 493
  = Some (Returns false, TableFS.sample).
Proof. reflexivity. Qed.

Example test_Mkdirs_under_file :
  Mkdirs (H := TableFS.calls) POSIX TableFS.sample "/tmp/f/sub" 493
  = Some (Returns false, TableFS.sample).
Proof. reflexivity. Qed.

End TestFile.

(* ===================================================================== *)
(** * Part III: the claims                                                *)
(* ===================================================================== *)

(** ** Temporary directory and environment *)

(** C1: on POSIX with [TMPDIR] set to the empty string, [GetTmpDir] returns
    the empty string and not the default ["/tmp"]. *)
Lemma GetTmpDir_empty_TMPDIR :
  getenv {[ "TMPDIR" := "" ]} "TMPDIR" = Some ""
  /\ GetTmpDir POSIX {[ "TMPDIR" := "" ]} = ""
  /\ GetTmpDir POSIX {[ "TMPDIR" := "" ]} <> "/tmp".
Proof. repeat split. discriminate. Qed.

(** The two values file_test.cc gives [TMPDIR] in
    [TestPosixTmpDirResolution]: [GetTmpDir] returns each as it is, where the
    test expects ["/tmp"] for the first and, for a directory name followed by
    a slash, the name without the slash. *)
Lemma GetTmpDir_as_file_test_sets_it (custom : string) :
  GetTmpDir POSIX {[ "TMPDIR" := "/path/that/should/not/exist" ]}
  = "/path/that/should/not/exist"
  /\ GetTmpDir POSIX {[ "TMPDIR" := (custom ++ "/")%string ]}
     = (custom ++ "/")%string
  /\ GetTmpDir POSIX {[ "TMPDIR" := (custom ++ "/")%string ]} <> custom.
Proof.
  split; [reflexivity|].
  assert (E : GetTmpDir POSIX {[ "TMPDIR" := (custom ++ "/")%string ]}
              = (custom ++ "/")%string).
  { rewrite GetTmpDir_eq. unfold getenv. now rewrite lookup_singleton_eq. }
  split; [exact E|]. rewrite E. intros Heq.
  apply (f_equal size) in Heq. rewrite size_app in Heq. cbn in Heq. lia.
Qed.

(** C2: on a WIN32 build with [TMP], [TEMP] and [LOCALAPPDATA] all set and
    [TMPDIR] unset, [GetTmpDir] returns ["/tmp"] and none of the three
    values: the chain [TMP], [TEMP], [LOCALAPPDATA] is not consulted. *)
Theorem GetTmpDir_win32_ignores_TMP :
  let env : gmap string string :=
    <["TMP" := "C:\Temp1"]>
      (<["TEMP" := "C:\Temp2"]>
        (<["LOCALAPPDATA" := "C:\Users\u\AppData\Local"]> ∅)) in
  getenv env "TMP" = Some "C:\Temp1"
  /\ GetTmpDir WIN32 env = "/tmp"
  /\ GetTmpDir WIN32 env <> "C:\Temp1".
Proof. repeat split. discriminate. Qed.

(** C9: [GetEnv] returns the default when the variable is unset, and the
    value of the variable when it is set; a variable set to the empty string
    gives the empty string, so a set variable never yields a default that
    differs from its value. *)
Theorem GetEnv_default_only_when_unset
    (env : gmap string string) (key default_value : string) :
  (getenv env (c_str key) = None ->
     GetEnv env key default_value = default_value)
  /\ (forall val, getenv env (c_str key) = Some val ->
        GetEnv env key default_value = val)
  /\ (getenv env (c_str key) = Some "" -> GetEnv env key default_value = "")
  /\ (forall val, getenv env (c_str key) = Some val -> val <> default_value ->
        GetEnv env key default_value <> default_value).
Proof.
  repeat split.
  - apply GetEnv_unset.
  - intros val. apply GetEnv_set.
  - apply GetEnv_set.
  - intros val Hv Hne. now rewrite (GetEnv_set _ _ _ _ Hv).
Qed.

Lemma GetEnv_default_only_when_unset_witness :
  getenv {[ "HOME" := "" ]} (c_str "HOME") = Some ""
  /\ GetEnv {[ "HOME" := "" ]} "HOME" "/root" = ""
  /\ getenv {[ "HOME" := "" ]} (c_str "USER") = None
  /\ GetEnv {[ "HOME" := "" ]} "USER" "nobody" = "nobody".
Proof.
  split; [reflexivity|]. split.
  - destruct (GetEnv_default_only_when_unset {[ "HOME" := "" ]} "HOME" "/root")
      as (_ & _ & Hempty & _).
    apply Hempty. reflexivity.
  - split; [reflexivity|].
    destruct (GetEnv_default_only_when_unset {[ "HOME" := "" ]} "USER" "nobody")
      as (Hunset & _).
    apply Hunset. reflexivity.
Defined.

(** ** Path classifier *)

(** C4, as stated, fails on WIN32. The path ["1:x"] has no drive letter and
    no leading double separator, so it is one of the other inputs, for which
    the result should be 0: it is 2, as it is for ["::"]. The path
    ["//server/share/dir"] has a leading double separator, a server and a
    share, both closed by a separator, so the result should be 14: it is
    0. *)
Lemma WindowsRootPrefixLength_not_as_stated :
  (~ drive_letter_form "1:x" /\ ~ leading_double_separator "1:x"
   /\ internal.WindowsRootPrefixLength WIN32 "1:x" = 2)
  /\ (~ drive_letter_form "::" /\ ~ leading_double_separator "::"
      /\ internal.WindowsRootPrefixLength WIN32 "::" = 2)
  /\ (leading_double_separator "//server/share/dir"
      /\ internal.WindowsRootPrefixLength WIN32 "//server/share/dir" = 0
      /\ internal.WindowsRootPrefixLength WIN32 "\\server\share\dir" = 14).
Proof.
  split; [|split].
  - split; [|split; [|reflexivity]].
    + intros (x & rest & Heq & Hx). injection Heq as <- _. discriminate Hx.
    + intros (c & c' & rest & Heq & Hc & _). injection Heq as <- _ _.
      discriminate Hc.
  - split; [|split; [|reflexivity]].
    + intros (x & rest & Heq & Hx). injection Heq as <- _. discriminate Hx.
    + intros (c & c' & rest & Heq & Hc & _). injection Heq as <- _ _.
      discriminate Hc.
  - split; [|split; reflexivity].
    exists slash, slash, "server/share/dir". now repeat split.
Qed.

(** C4, amended: [WindowsRootPrefixLength] is a function of the path alone.
    It is 0 on POSIX for every path. On WIN32: when the second character is
    a colon, whatever the first one is, it is 3 when a separator follows the
    colon and 2 otherwise; after two leading backslashes it is the length of
    the whole path when the server or the share is not closed by a separator,
    and otherwise the number of characters in front of the separator that
    closes the share; for every other path, those that begin with two
    slashes included, it is 0. *)
Theorem WindowsRootPrefixLength_classifies :
  (forall path, internal.WindowsRootPrefixLength POSIX path = 0)
  /\ (forall x rest,
        internal.WindowsRootPrefixLength WIN32 (String x (String colon rest))
        = if starts_with_separator rest then 3 else 2)
  /\ (forall server,
        no_separator server = true ->
        internal.WindowsRootPrefixLength WIN32
          (String backslash (String backslash server))
        = size (String backslash (String backslash server)))
  /\ (forall server c share,
        no_separator server = true -> is_separator c = true ->
        no_separator share = true ->
        internal.WindowsRootPrefixLength WIN32
          (String backslash
             (String backslash (server ++ String c share)%string))
        = size (String backslash
                  (String backslash (server ++ String c share)%string)))
  /\ (forall server c share c' rest,
        no_separator server = true -> is_separator c = true ->
        no_separator share = true -> is_separator c' = true ->
        internal.WindowsRootPrefixLength WIN32
          (String backslash
             (String backslash
                (server ++ String c (share ++ String c' rest))%string))
        = 2 + size server + 1 + size share)
  /\ (forall path,
        ~ drive_form path -> ~ unc_form path ->
        internal.WindowsRootPrefixLength WIN32 path = 0).
Proof.
  split; [exact WindowsRootPrefixLength_posix|].
  split; [exact WindowsRootPrefixLength_drive|].
  split; [exact WindowsRootPrefixLength_unc_server|].
  split; [exact WindowsRootPrefixLength_unc_share|].
  split; [exact WindowsRootPrefixLength_unc_full|].
  exact WindowsRootPrefixLength_other.
Qed.

Lemma WindowsRootPrefixLength_classifies_witness :
  internal.WindowsRootPrefixLength WIN32 "C:\dir" = 3
  /\ internal.WindowsRootPrefixLength WIN32 "C:dir" = 2
  /\ internal.WindowsRootPrefixLength WIN32 "\\server" = 8
  /\ internal.WindowsRootPrefixLength WIN32 "\\server\share" = 14
  /\ internal.WindowsRootPrefixLength WIN32 "\\server\share\dir" = 14
  /\ internal.WindowsRootPrefixLength WIN32 "dir\sub" = 0.
Proof.
  destruct WindowsRootPrefixLength_classifies
    as (_ & Hdrive & Hserver & Hshare & Hfull & Hother).
  split; [exact (Hdrive "C"%char "\dir")|].
  split; [exact (Hdrive "C"%char "dir")|].
  split; [exact (Hserver "server" eq_refl)|].
  split; [exact (Hshare "server" backslash "share" eq_refl eq_refl eq_refl)|].
  split; [exact (Hfull "server" backslash "share" backslash "dir"
                   eq_refl eq_refl eq_refl eq_refl)|].
  apply Hother.
  - intros (x & rest & Heq). discriminate Heq.
  - intros (rest & Heq). discriminate Heq.
Defined.

(** ** Directory operations *)

(** C3: [IsDirectory] on the block device [/dev/sda] of the sample file
    system (mode 060660) returns true, although the entry is there and is not
    a directory: the test is on the bit [S_IFDIR], which the type codes of
    block devices and sockets contain. *)
Theorem IsDirectory_block_device :
  stat (Syscalls := TableFS.calls) TableFS.sample (c_str "/dev/sda")
  = Some 25008%Z
  /\ S_ISBLK 25008 = true
  /\ S_ISDIR 25008 = false
  /\ IsDirectory (H := TableFS.calls) TableFS.sample "/dev/sda" = true.
Proof. repeat split. Qed.

(** X25: for a non-empty path whose target fully exists, [Mkdirs] returns
    true when the target is a directory and false when it is a regular file,
    and leaves the file system as it was; a second call returns the same and
    leaves the file system as it was again. *)
Theorem Mkdirs_existing_target {FS : Type} `{Syscalls FS}
    (pl : platform) (fs : FS) (path : string) (mode m : Z) :
  empty path = false ->
  fully_exists pl fs path m ->
  (S_ISDIR m = true ->
     Mkdirs pl fs path mode = Some (Returns true, fs)
     /\ Mkdirs_twice pl fs path mode = Some ((Returns true, Returns true), fs))
  /\ (S_ISREG m = true ->
        Mkdirs pl fs path mode = Some (Returns false, fs)
        /\ Mkdirs_twice pl fs path mode
           = Some ((Returns false, Returns false), fs)).
Proof.
  intros Hne Hex. split.
  - intros Hd.
    pose proof (Mkdirs_on_existing pl fs path mode m Hne Hex (or_introl Hd)) as E.
    rewrite Hd in E. unfold Mkdirs_twice. now rewrite !E.
  - intros Hr.
    pose proof (Mkdirs_on_existing pl fs path mode m Hne Hex (or_intror Hr)) as E.
    rewrite (S_ISREG_not_dir _ Hr) in E. unfold Mkdirs_twice. now rewrite !E.
Qed.

(** Decides [fully_exists] on a table: the prefixes are tried one by one. *)
Ltac table_fully_exists :=
  unfold fully_exists; repeat split; try reflexivity;
  let i := fresh "i" in
  let Hlo := fresh "Hlo" in
  let Hhi := fresh "Hhi" in
  let Hsep := fresh "Hsep" in
  intros i Hlo Hhi Hsep;
  cbn in Hlo, Hhi;
  do 8 (destruct i as [|i];
        [ first [ lia
                | discriminate Hsep
                | eexists; split; reflexivity ] | ]);
  lia.

Lemma Mkdirs_existing_target_witness :
  Mkdirs (H := TableFS.calls) POSIX TableFS.sample "/tmp/a" 493
  = Some (Returns true, TableFS.sample)
  /\ Mkdirs (H := TableFS.calls) POSIX TableFS.sample "/tmp/f" 493
     = Some (Returns false, TableFS.sample).
Proof.
  split.
  - refine (proj1 (proj1 (Mkdirs_existing_target (H := TableFS.calls)
                            POSIX TableFS.sample "/tmp/a" 493 16877 eq_refl _)
                     eq_refl)).
    table_fully_exists.
  - refine (proj1 (proj2 (Mkdirs_existing_target (H := TableFS.calls)
                            POSIX TableFS.sample "/tmp/f" 493 33188 eq_refl _)
                     eq_refl)).
    table_fully_exists.
Defined.

(** On a target that fully exists and is a block device or a socket, when
    [create_directories] reports an error, [Mkdirs] goes through its fallback
    and returns true: the test there is on the bit [S_IFDIR]. *)
Lemma Mkdirs_existing_block_or_socket {FS : Type} `{Syscalls FS}
    (pl : platform) (fs : FS) (path : string) (mode m : Z) :
  empty path = false ->
  fully_exists pl fs path m ->
  S_ISBLK m = true \/ S_ISSOCK m = true ->
  snd (fst (create_directories fs path)) <> 0%Z ->
  Mkdirs pl fs path mode = Some (Returns true, fs).
Proof.
  intros Hne (Hm & Hpre & Hcr & Hst & Hex & Hisd) Hty Hec.
  unfold Mkdirs. rewrite Hne.
  destruct (create_directories fs path) as [[created ec] fs1].
  cbn [fst snd] in Hcr, Hst, Hec. subst created fs1.
  apply Z.eqb_neq in Hec. rewrite Hec.
  rewrite (Mkdirs_loop_existing _ pl fs path mode m
             (internal.WindowsRootPrefixLength pl path)) by (auto; lia).
  destruct Hty as [Hb|Hk].
  - now rewrite (S_ISBLK_bit _ Hb).
  - now rewrite (S_ISSOCK_bit _ Hk).
Qed.

(** C5: [/dev/sda] of the sample file system fully exists and is a block
    device, not a directory; [create_directories] returns false with the
    error [ENOTDIR] and creates nothing; and [Mkdirs] returns true, where
    the entry being no directory it should return false. The file system is
    left as it was. *)
Theorem Mkdirs_existing_block_device :
  fully_exists (H := TableFS.calls) POSIX TableFS.sample "/dev/sda" 25008
  /\ S_ISBLK 25008 = true
  /\ S_ISDIR 25008 = false
  /\ create_directories (Syscalls := TableFS.calls) TableFS.sample "/dev/sda"
     = (false, TableFS.ENOTDIR, TableFS.sample)
  /\ Mkdirs (H := TableFS.calls) POSIX TableFS.sample "/dev/sda" 493
     = Some (Returns true, TableFS.sample).
Proof.
  split; [table_fully_exists|]. repeat split.
Qed.

(** C10: the fallback loop of [Mkdirs] comes to an end on every path. Each
    search for the next separator returns either [npos] or a position
    strictly after the current one and inside the path, so the loop started
    at [p] evaluates its body at most [size path - p + 1] times, whatever the
    system calls do; with the [size path + 1] units it is given, [Mkdirs]
    returns on all arguments. *)
Theorem Mkdirs_loop_terminates {FS : Type} `{Syscalls FS}
    (pl : platform) (fs : FS) (path : string) (mode : Z) :
  (forall p q,
     find_first_of path separators (p + 1) = Some q -> p < q /\ q < size path)
  /\ (forall fuel p,
        size path - p < fuel ->
        exists r, Mkdirs_loop fuel pl fs path mode (Some p) = Some r)
  /\ (exists r, Mkdirs pl fs path mode = Some r).
Proof.
  split; [|split].
  - intros p q. apply separator_search_advances.
  - intros fuel p Hf. now apply Mkdirs_loop_returns.
  - apply Mkdirs_returns.
Qed.

Lemma Mkdirs_loop_terminates_witness :
  find_first_of "/tmp/x/y" separators (0 + 1) = Some 4
  /\ (0 < 4 /\ 4 < size "/tmp/x/y")
  /\ (exists r, Mkdirs_loop (H := TableFS.calls) 9 POSIX TableFS.sample
                  "/tmp/x/y" 493 (Some 0)
                = Some r)
  /\ (exists r, Mkdirs (H := TableFS.calls) POSIX TableFS.sample "/tmp/x/y" 493
                = Some r).
Proof.
  destruct (Mkdirs_loop_terminates (H := TableFS.calls)
              POSIX TableFS.sample "/tmp/x/y" 493) as (Hadv & Hloop & Hret).
  split; [reflexivity|].
  split; [apply (Hadv 0 4); reflexivity|].
  split; [apply (Hloop 9 0); cbn; lia | exact Hret].
Defined.

(** ** The [File] handle *)


(** C8: [WriteContentsToFile] on a file that opens returns normally with the
    unit also when [Write] returned false, that is when [fwrite] took fewer
    bytes than it was given; the result is the one it would give for any
    other answer of [Write]. *)
Theorem WriteContentsToFile_drops_result
    (fopen : string -> string -> option FILE)
    (filename mode : string) (str : list byte) (f : FILE) :
  fopen (c_str filename) (c_str mode) = Some f ->
  fst (File.Write f str) = false ->
  fst (fwrite f str) < length str
  /\ WriteContentsToFile fopen filename mode str
     = Returns (tt, File.destructor (snd (File.Write f str))).
Proof.
  intros Ho Hw. split.
  - now apply Write_false_short.
  - now apply WriteContentsToFile_opened.
Qed.

Lemma WriteContentsToFile_drops_result_witness :
  small_device (c_str "/tmp/f") (c_str "w") = Some (fresh 3)
  /\ fst (File.Write (fresh 3) [x68; x65; x6c; x6c; x6f]) = false
  /\ WriteContentsToFile small_device "/tmp/f" "w"
       [x68; x65; x6c; x6c; x6f]
     = Returns (tt, mkFILE [x68; x65; x6c] 3 0).
Proof.
  split; [reflexivity|]. split; [reflexivity|].
  exact (proj2 (WriteContentsToFile_drops_result small_device
                  "/tmp/f" "w" [x68; x65; x6c; x6c; x6f] (fresh 3)
                  eq_refl eq_refl)).
Defined.

(** Below 2 GiB the round trip of C6 holds: after a complete write to a new
    file, [Length] and [Tell] give the number of bytes written and
    [ReadContents] on the file opened again gives the bytes back. *)
Lemma write_read_below_2GiB (s : list byte) (r : nat) :
  fst (File.Write (fresh r) s) = true ->
  (Z.of_nat (length s) < 2 ^ 31)%Z ->
  fst (File.Length (snd (File.Write (fresh r) s))) = Z.of_nat (length s)
  /\ File.Tell (snd (File.Write (fresh r) s)) = Z.of_nat (length s)
  /\ fst (File.ReadContents (reopen (snd (File.Write (fresh r) s))))
     = Returns s.
Proof.
  intros Hw Hs. rewrite (Write_fresh_complete _ _ Hw), Length_eq.
  repeat split. now apply ReadContents_small.
Qed.

(** From 2 GiB on it does not: the count that [fread] returns does not fit
    the [int] it is stored in. *)
Lemma write_read_from_2GiB (s : list byte) (r : nat) :
  fst (File.Write (fresh r) s) = true ->
  (2 ^ 31 <= Z.of_nat (length s) < 2 ^ 32)%Z ->
  fst (File.Length (snd (File.Write (fresh r) s))) = Z.of_nat (length s)
  /\ File.Tell (snd (File.Write (fresh r) s)) = Z.of_nat (length s)
  /\ fst (File.ReadContents (reopen (snd (File.Write (fresh r) s))))
     = Throws length_error.
Proof.
  intros Hw Hs. rewrite (Write_fresh_complete _ _ Hw), Length_eq.
  repeat split. now apply ReadContents_wraps.
Qed.

Lemma two_GiB_length :
  Z.of_nat (length two_GiB_of_zeros) = (2 ^ 31)%Z.
Proof.
  unfold two_GiB_of_zeros. rewrite length_replicate. apply Z2Nat.id.
  apply Z.pow_nonneg. lia.
Qed.

(** C6: for a string of 2^31 zero bytes written in full to a new file,
    [Length] and [Tell] both give 2^31, the length of the string, but
    [ReadContents] on the file opened again does not give the string back:
    [int read] holds -2^31 and [out.resize(read)] raises [length_error]. *)
Theorem ReadContents_2GiB_file :
  fst (File.Write (fresh (length two_GiB_of_zeros))
         two_GiB_of_zeros) = true
  /\ fst (File.Length
            (snd (File.Write (fresh (length two_GiB_of_zeros))
                    two_GiB_of_zeros)))
     = (2 ^ 31)%Z
  /\ File.Tell
       (snd (File.Write (fresh (length two_GiB_of_zeros))
               two_GiB_of_zeros))
     = (2 ^ 31)%Z
  /\ fst (File.ReadContents
            (reopen (snd (File.Write (fresh (length two_GiB_of_zeros))
                            two_GiB_of_zeros))))
     = Throws length_error.
Proof.
  generalize two_GiB_length. generalize two_GiB_of_zeros. intros s Hlen.
  assert (Hw : fst (File.Write (fresh (length s)) s) = true).
  { rewrite Write_fresh. apply Nat.leb_refl. }
  destruct (write_read_from_2GiB s (length s) Hw) as (HL & HT & HR); [lia|].
  rewrite HL, HT, HR, Hlen. now repeat split.
Qed.

(* ===================================================================== *)
(** * Part IV: further properties of the code                             *)
(* ===================================================================== *)

(** ** Path classifier *)

(** X1: the root prefix never reaches past the end of the path, on either
    platform. *)
Theorem WindowsRootPrefixLength_le_size (pl : platform) (path : string) :
  internal.WindowsRootPrefixLength pl path <= size path.
Proof.
  unfold internal.WindowsRootPrefixLength, internal.WindowsRootPrefixLengthImpl.
  destruct pl; [lia|].
  destruct (1 <? size path) eqn:H1; cbn [andb]; [|lia].
  apply Nat.ltb_lt in H1.
  destruct (Ascii.eqb (at_ path 1) colon).
  - destruct (2 <? size path) eqn:H2; cbn [andb].
    + apply Nat.ltb_lt in H2.
      destruct (Ascii.eqb (at_ path 2) backslash || Ascii.eqb (at_ path 2) slash);
        lia.
    + lia.
  - destruct (Ascii.eqb (at_ path 0) backslash && Ascii.eqb (at_ path 1) backslash);
      [|lia].
    destruct (find_first_of path separators 2) as [q|] eqn:Hq; [|lia].
    destruct (find_first_of path separators (q + 1)) as [q'|] eqn:Hq'; [|lia].
    apply find_first_of_Some in Hq'. lia.
Qed.

(** ** Directory operations *)

Section MoreDirectories.

Context {FS : Type} `{Syscalls FS}.

Implicit Types (fs : FS) (path : string) (mode m : Z) (pl : platform)
  (p q i fuel : nat).

(** X2: what [IsDirectory] accepts, [Exists] accepts; what [Exists] rejects,
    [IsDirectory] rejects. *)
Theorem IsDirectory_Exists fs path :
  (IsDirectory fs path = true -> Exists fs path = true)
  /\ (Exists fs path = false -> IsDirectory fs path = false).
Proof.
  unfold IsDirectory, Exists.
  destruct (stat fs (c_str path)); split; congruence.
Qed.

(** X3: [Remove] goes to [rmdir] for a directory, and also for a block device
    and for a socket; it goes to [unlink] for a regular file and for a path
    that [stat] does not find. It returns true exactly when the call it made
    returned 0. *)
Theorem Remove_dispatch fs path :
  (forall m, stat fs (c_str path) = Some m ->
     S_ISDIR m = true \/ S_ISBLK m = true \/ S_ISSOCK m = true ->
     Remove fs path
     = ((fst (rmdir fs (c_str path)) =? 0)%Z, snd (rmdir fs (c_str path))))
  /\ (forall m, stat fs (c_str path) = Some m -> S_ISREG m = true ->
        Remove fs path
        = ((fst (unlink fs (c_str path)) =? 0)%Z, snd (unlink fs (c_str path))))
  /\ (stat fs (c_str path) = None ->
        Remove fs path
        = ((fst (unlink fs (c_str path)) =? 0)%Z, snd (unlink fs (c_str path)))).
Proof.
  unfold Remove. repeat split.
  - intros m Hs Hty.
    assert (Hd : IsDirectory fs path = true).
    { destruct Hty as [Hd|Hbs]; [now apply (IsDirectory_directory _ _ m)|].
      now apply (IsDirectory_block_or_socket _ _ m). }
    rewrite Hd. now destruct (rmdir fs (c_str path)).
  - intros m Hs Hr. rewrite (IsDirectory_regular_file _ _ _ Hs Hr).
    now destruct (unlink fs (c_str path)).
  - intros Hs. rewrite (IsDirectory_absent _ _ Hs).
    now destruct (unlink fs (c_str path)).
Qed.

End MoreDirectories.

Section FallbackLoop.

Context {FS : Type} `{Syscalls FS}.

Implicit Types (fs : FS) (path : string) (mode m : Z) (pl : platform)
  (p q i fuel : nat).

(** A path the loop has found to be a directory stays one to the end of the
    loop, when no [Mkdir] undoes a directory. *)
Lemma Mkdirs_loop_keeps pl
    (Hkeep : forall fs (sub : string) mode (other : string),
       IsDirectory fs other = true ->
       IsDirectory (snd (Mkdir pl fs sub mode)) other = true)
    fuel fs path mode pos b fs' (other : string) :
  Mkdirs_loop fuel pl fs path mode pos = Some (b, fs') ->
  IsDirectory fs other = true -> IsDirectory fs' other = true.
Proof.
  revert fs pos. induction fuel as [|fuel IH]; intros fs [p|]; cbn [Mkdirs_loop];
    try congruence; try (now intros [= _ <-]).
  destruct (empty _); [apply IH|].
  destruct (stat fs _) as [st_mode|] eqn:Hs.
  - destruct (negb _); [apply IH | now intros [= _ <-]].
  - destruct (Mkdir pl fs _ mode) as [ok fs1] eqn:Hm.
    intros Hr Hq.
    assert (Hq1 : IsDirectory fs1 other = true).
    { pose proof (Hkeep fs
                    (substr0 path (find_first_of path separators (p + 1)))
                    mode other Hq) as Hk.
      now rewrite Hm in Hk. }
    destruct ok; [now apply (IH fs1 _ Hr) | now injection Hr as _ <-].
Qed.

Lemma Mkdirs_loop_directories pl
    (Hmk : forall fs (sub : string) mode fs',
       Mkdir pl fs sub mode = (true, fs') -> IsDirectory fs' sub = true)
    (Hkeep : forall fs (sub : string) mode (other : string),
       IsDirectory fs other = true ->
       IsDirectory (snd (Mkdir pl fs sub mode)) other = true)
    fuel fs path mode p fs' :
  empty path = false ->
  Mkdirs_loop fuel pl fs path mode (Some p) = Some (true, fs') ->
  IsDirectory fs' path = true
  /\ (forall i, p < i -> i < size path ->
        contains separators (at_ path i) = true ->
        IsDirectory fs' (prefix i path) = true).
Proof.
  intros Hne. revert fs p. induction fuel as [|fuel IH]; intros fs p;
    cbn [Mkdirs_loop]; [congruence|].
  destruct (find_first_of path separators (p + 1)) as [q|] eqn:Hq;
    cbn [substr0].
  - destruct (find_first_of_Some _ _ _ _ Hq) as (Hpq & Hqs & Hsep).
    rewrite prefix_not_empty by lia.
    assert (Hstep : forall fs1,
              IsDirectory fs1 (prefix q path) = true ->
              Mkdirs_loop fuel pl fs1 path mode (Some q) = Some (true, fs') ->
              IsDirectory fs' path = true
              /\ (forall i, p < i -> i < size path ->
                    contains separators (at_ path i) = true ->
                    IsDirectory fs' (prefix i path) = true)).
    { intros fs1 Hd Hr. destruct (IH fs1 q Hr) as [Hpath Hpre].
      split; [exact Hpath|]. intros i Hpi Hi Hc.
      destruct (Nat.lt_trichotomy i q) as [Hlt|[->|Hgt]].
      - rewrite (find_first_of_least _ _ _ _ i Hq) in Hc by lia. discriminate.
      - now apply (Mkdirs_loop_keeps pl Hkeep _ _ _ _ _ _ _ _ Hr).
      - now apply Hpre. }
    destruct (stat fs (c_str (prefix q path))) as [st_mode|] eqn:Hs.
    + destruct (negb (Z.land st_mode S_IFDIR =? 0)%Z) eqn:Hb; [|congruence].
      apply Hstep. unfold IsDirectory. now rewrite Hs.
    + destruct (Mkdir pl fs (prefix q path) mode) as [[|] fs1] eqn:Hm;
        [|congruence].
      apply Hstep. now apply (Hmk _ _ _ _ Hm).
  - rewrite Hne.
    assert (Hnone : forall i, p < i -> i < size path ->
              contains separators (at_ path i) = true -> False).
    { intros i Hpi Hi Hc.
      rewrite (find_first_of_None _ _ _ i Hq) in Hc by lia. discriminate. }
    destruct (stat fs (c_str path)) as [st_mode|] eqn:Hs.
    + destruct (negb (Z.land st_mode S_IFDIR =? 0)%Z) eqn:Hb; [|congruence].
      destruct fuel; cbn [Mkdirs_loop]; intros [= <-].
      all: split; [unfold IsDirectory; now rewrite Hs|].
      all: intros i Hpi Hi Hc; now destruct (Hnone i).
    + destruct (Mkdir pl fs path mode) as [[|] fs1] eqn:Hm; [|congruence].
      destruct fuel; cbn [Mkdirs_loop]; intros [= <-].
      all: split; [now apply (Hmk _ _ _ _ Hm)|].
      all: intros i Hpi Hi Hc; now destruct (Hnone i).
Qed.

(** X4: when the loop returns true, the path and every proper prefix that ends
    in front of a separator past the starting position pass [IsDirectory] in
    the state the loop leaves, provided a successful [Mkdir] makes a
    directory and no [Mkdir] undoes one. *)
Theorem Mkdirs_loop_true pl
    (Hmk : forall fs (sub : string) mode fs',
       Mkdir pl fs sub mode = (true, fs') -> IsDirectory fs' sub = true)
    (Hkeep : forall fs (sub : string) mode (other : string),
       IsDirectory fs other = true ->
       IsDirectory (snd (Mkdir pl fs sub mode)) other = true)
    fuel fs path mode p fs' :
  empty path = false ->
  Mkdirs_loop fuel pl fs path mode (Some p) = Some (true, fs') ->
  IsDirectory fs' path = true
  /\ (forall i, p < i -> i < size path ->
        contains separators (at_ path i) = true ->
        IsDirectory fs' (prefix i path) = true).
Proof. exact (Mkdirs_loop_directories pl Hmk Hkeep fuel fs path mode p fs'). Qed.

(** X5: an entry in the way: when the prefixes in front of the separators
    between [p] and [i] are directories and the prefix in front of the
    separator at [i] is there without the directory bit, the loop returns
    false and leaves the file system as it was. *)
Theorem Mkdirs_loop_blocked fuel pl fs path mode p i mi :
  (forall j, p < j -> j < i ->
     contains separators (at_ path j) = true ->
     exists mj, stat fs (c_str (prefix j path)) = Some mj
                /\ Z.land mj S_IFDIR <> 0%Z) ->
  p < i -> i < size path ->
  contains separators (at_ path i) = true ->
  stat fs (c_str (prefix i path)) = Some mi ->
  Z.land mi S_IFDIR = 0%Z ->
  size path - p < fuel ->
  Mkdirs_loop fuel pl fs path mode (Some p) = Some (false, fs).
Proof.
  intros Hpre Hpi Hi Hsep Hmi Hbit. revert p Hpre Hpi.
  induction fuel as [|fuel IH]; intros p Hpre Hpi Hf; [lia|].
  cbn [Mkdirs_loop].
  destruct (find_first_of path separators (p + 1)) as [q|] eqn:Hq;
    cbn [substr0].
  - destruct (find_first_of_Some _ _ _ _ Hq) as (Hpq & Hqs & Hc).
    rewrite prefix_not_empty by lia.
    destruct (Nat.lt_trichotomy q i) as [Hlt|[->|Hgt]].
    + destruct (Hpre q) as (mj & Hmj & Hb); [lia | lia | exact Hc |].
      rewrite Hmj. apply Z.eqb_neq in Hb. rewrite Hb. cbn [negb].
      apply IH; [|lia|lia]. intros j Hj1 Hj2. apply Hpre; lia.
    + rewrite Hmi, Hbit. reflexivity.
    + rewrite (find_first_of_least _ _ _ _ i Hq) in Hsep by lia. discriminate.
  - rewrite (find_first_of_None _ _ _ i Hq) in Hsep by lia. discriminate.
Qed.

End FallbackLoop.

Section FallbackLoopAgain.

Context {FS : Type} `{Syscalls FS}.

Implicit Types (fs : FS) (path : string) (mode : Z) (pl : platform)
  (p i fuel : nat).

(** On a path that passes [IsDirectory], as do its prefixes in front of the
    separators past [p], the loop creates nothing and returns true. *)
Lemma Mkdirs_loop_all_directories fuel pl fs path mode p :
  empty path = false ->
  IsDirectory fs path = true ->
  (forall i, p < i -> i < size path ->
     contains separators (at_ path i) = true ->
     IsDirectory fs (prefix i path) = true) ->
  size path - p < fuel ->
  Mkdirs_loop fuel pl fs path mode (Some p) = Some (true, fs).
Proof.
  intros Hne Hpath. revert p.
  induction fuel as [|fuel IH]; intros p Hpre Hf; [lia|].
  cbn [Mkdirs_loop].
  destruct (find_first_of path separators (p + 1)) as [q|] eqn:Hq;
    cbn [substr0].
  - destruct (find_first_of_Some _ _ _ _ Hq) as (Hpq & Hqs & Hsep).
    rewrite prefix_not_empty by lia.
    pose proof (Hpre q) as Hd. unfold IsDirectory in Hd.
    destruct (stat fs (c_str (prefix q path))) as [st_mode|];
      [|discriminate Hd; [lia | lia | exact Hsep]].
    rewrite Hd by (auto; lia).
    apply IH; [|lia]. intros i Hi. apply Hpre. lia.
  - rewrite Hne. unfold IsDirectory in Hpath.
    destruct (stat fs (c_str path)) as [st_mode|]; [|discriminate].
    rewrite Hpath. now destruct fuel.
Qed.

(** X6: after the loop has returned true, running it again from the same
    position, on the state it left, creates nothing and returns true:
    provided a successful [Mkdir] makes a directory and no [Mkdir] undoes
    one. *)
Theorem Mkdirs_loop_again pl
    (Hmk : forall fs (sub : string) mode fs',
       Mkdir pl fs sub mode = (true, fs') -> IsDirectory fs' sub = true)
    (Hkeep : forall fs (sub : string) mode (other : string),
       IsDirectory fs other = true ->
       IsDirectory (snd (Mkdir pl fs sub mode)) other = true)
    fuel fuel' fs path mode p fs' :
  empty path = false ->
  Mkdirs_loop fuel pl fs path mode (Some p) = Some (true, fs') ->
  size path - p < fuel' ->
  Mkdirs_loop fuel' pl fs' path mode (Some p) = Some (true, fs').
Proof.
  intros Hne Hr Hf.
  destruct (Mkdirs_loop_directories pl Hmk Hkeep fuel fs path mode p fs' Hne Hr)
    as [Hpath Hpre].
  now apply Mkdirs_loop_all_directories.
Qed.

End FallbackLoopAgain.


(** ** The [File] handle *)

Section MoreStreams.

Import File.

Implicit Types (f : FILE) (s str out : list byte) (count offset z : Z).

Lemma Seek_eq f offset :
  Seek f offset
  = if (offset <? 0)%Z then (false, f)
    else (true, mkFILE (contents f) (Z.to_nat offset) (room f)).
Proof.
  unfold Seek, fseek. rewrite Z.add_0_l.
  now destruct (offset <? 0)%Z.
Qed.

Lemma reading_at_eq (g : FILE) (p : Z) :
  (0 <= p)%Z -> reading_at g p = mkFILE (contents g) (Z.to_nat p) (room g).
Proof.
  intros Hp. unfold reading_at. rewrite Seek_eq.
  destruct (Z.ltb_spec p 0); [lia | reflexivity].
Qed.

Lemma updating_at_eq (g : FILE) (p : Z) :
  (0 <= p)%Z -> updating_at g p = mkFILE (contents g) (Z.to_nat p) (room g).
Proof.
  intros Hp. unfold updating_at. rewrite Seek_eq.
  destruct (Z.ltb_spec p 0); [lia | reflexivity].
Qed.

(** X7: on a stream opened for reading, at any offset [p], [Seek] to an offset
    between 0 and 2^31 - 1 returns true and leaves the stream at that offset,
    where [Tell] reports it, with the bytes of the file as they were; [Seek]
    to a negative offset (from -2^31 on) returns false and leaves the stream
    where it was. *)
Theorem Seek_Tell (g : FILE) (p offset : Z) :
  (0 <= p < 2 ^ 31)%Z ->
  ((- 2 ^ 31 <= offset < 0)%Z ->
     Seek (reading_at g p) offset = (false, reading_at g p))
  /\ ((0 <= offset < 2 ^ 31)%Z ->
        Seek (reading_at g p) offset = (true, reading_at g offset)
        /\ Tell (reading_at g offset) = offset
        /\ contents (reading_at g offset) = contents g).
Proof.
  intros Hp. rewrite Seek_eq. split.
  - intros Ho. destruct (Z.ltb_spec offset 0); [reflexivity | lia].
  - intros Ho. destruct (Z.ltb_spec offset 0); [lia|].
    rewrite !reading_at_eq by lia. cbn [contents room].
    unfold Tell, ftell. cbn [position].
    split; [reflexivity|]. split; [lia | reflexivity].
Qed.

(** The bytes a call of [fread] takes. *)
Lemma fread_eq f n :
  fread f n
  = (take n (drop (position f) (contents f)),
     mkFILE (contents f)
       (position f + Nat.min n (length (contents f) - position f)) (room f)).
Proof. unfold fread. now rewrite length_take, length_drop. Qed.

Lemma Read_in_range f count :
  (0 <= count < 2 ^ 31)%Z ->
  Read f count
  = (Returns (take (Z.to_nat count) (drop (position f) (contents f))),
     mkFILE (contents f)
       (position f
        + Nat.min (Z.to_nat count) (length (contents f) - position f))
       (room f)).
Proof.
  intros Hc. unfold Read.
  destruct (Z.ltb_spec count 0) as [Hlt|_]; [lia|].
  rewrite fread_eq.
  set (got := take (Z.to_nat count) (drop (position f) (contents f))).
  assert (Hgot : length got <= Z.to_nat count).
  { subst got. rewrite length_take. lia. }
  rewrite to_int_small by lia.
  destruct (Z.ltb_spec (Z.of_nat (length got)) 0) as [Hlt|_]; [lia|].
  rewrite Nat2Z.id, take_app_length. reflexivity.
Qed.

(** X8: on a stream opened for reading and moved to the offset [p], [Read] of
    a count between 0 and 2^31 - 1 returns the bytes of the file from [p] on,
    as many as asked for or as are left; afterwards [Tell] is [p] plus the
    number of bytes returned, and the bytes of the file are as before. *)
Theorem Read_slice (g : FILE) (p count : Z) :
  (0 <= p < 2 ^ 31)%Z ->
  (0 <= count < 2 ^ 31)%Z ->
  fst (Read (reading_at g p) count)
  = Returns (take (Z.to_nat count) (drop (Z.to_nat p) (contents g)))
  /\ Tell (snd (Read (reading_at g p) count))
     = (p + Z.of_nat (Nat.min (Z.to_nat count)
                        (length (contents g) - Z.to_nat p)))%Z
  /\ contents (snd (Read (reading_at g p) count)) = contents g.
Proof.
  intros Hp Hc. rewrite reading_at_eq by lia.
  rewrite Read_in_range by exact Hc.
  cbn [fst snd contents position room]. unfold Tell, ftell. cbn [position].
  split; [reflexivity|]. split; [lia | reflexivity].
Qed.

(** X9: at or past the end of the file, [Read] of a count between 0 and
    2^31 - 1 returns no bytes and leaves the stream as it is. *)
Theorem Read_at_end f count :
  (0 <= count < 2 ^ 31)%Z -> length (contents f) <= position f ->
  Read f count = (Returns [], f).
Proof.
  intros Hc Hp. rewrite Read_in_range by exact Hc.
  rewrite drop_ge by lia. rewrite take_nil.
  destruct f as [c q r]. cbn [contents position room] in *.
  do 2 f_equal. lia.
Qed.

(** X10: two reads in a row give what one read of the sum gives, cut after the
    first count. *)
Theorem Read_Read f (k1 k2 : Z) :
  (0 <= k1)%Z -> (0 <= k2)%Z -> (k1 + k2 < 2 ^ 31)%Z ->
  exists a b,
    fst (Read f k1) = Returns a
    /\ fst (Read (snd (Read f k1)) k2) = Returns b
    /\ Read f (k1 + k2) = (Returns (a ++ b), snd (Read (snd (Read f k1)) k2))
    /\ length a <= Z.to_nat k1.
Proof.
  intros H1 H2 H12.
  rewrite (Read_in_range f k1) by lia. cbn [fst snd].
  rewrite (Read_in_range _ k2) by lia. cbn [fst snd contents position room].
  rewrite (Read_in_range f (k1 + k2)) by lia.
  eexists _, _. split; [reflexivity|]. split; [reflexivity|].
  set (c := contents f). set (p := position f).
  set (n1 := Z.to_nat k1). set (n2 := Z.to_nat k2).
  replace (Z.to_nat (k1 + k2)) with (n1 + n2) by lia.
  split; [|rewrite length_take; lia].
  destruct (Nat.le_gt_cases n1 (length c - p)) as [Hle|Hgt].
  - rewrite (Nat.min_l n1) by lia.
    rewrite <- (drop_drop c n1 p), take_take_drop.
    do 2 f_equal. lia.
  - rewrite (Nat.min_r n1) by lia.
    rewrite (take_ge (drop p c) n1) by (rewrite length_drop; lia).
    rewrite (take_ge (drop p c) (n1 + n2)) by (rewrite length_drop; lia).
    rewrite (drop_ge c (p + (length c - p))) by lia.
    rewrite take_nil, app_nil_r.
    do 2 f_equal. lia.
Qed.

(** X11: whatever the count, what [Read] returns is a run of bytes of the file
    that starts at the position and is no longer than the count: the zeros
    [out] is filled with never come back. The file is as before. *)
Theorem Read_returns_file_bytes f count out f' :
  Read f count = (Returns out, f') ->
  (exists n, n <= Z.to_nat count
             /\ out = take n (drop (position f) (contents f)))
  /\ contents f' = contents f.
Proof.
  unfold Read. destruct (Z.ltb_spec count 0) as [Hlt|Hge]; [discriminate|].
  rewrite fread_eq.
  set (got := take (Z.to_nat count) (drop (position f) (contents f))).
  assert (Hgot : length got <= Z.to_nat count).
  { subst got. rewrite length_take. lia. }
  destruct (Z.ltb_spec (to_int (Z.of_nat (length got))) 0) as [Hlt|Hpos];
    [discriminate|].
  intros [= <- <-]. split; [|reflexivity].
  assert (Hread : (to_int (Z.of_nat (length got)) <= Z.of_nat (length got))%Z).
  { unfold to_int.
    pose proof (Z.mod_le (Z.of_nat (length got) + 2 ^ 31) (2 ^ 32)). lia. }
  exists (Z.to_nat (to_int (Z.of_nat (length got)))). split; [lia|].
  rewrite take_app_le by lia. subst got. rewrite take_take. f_equal. lia.
Qed.

End MoreStreams.

Section WriteAndReadBack.

Import File.

Implicit Types (f : FILE) (s str out : list byte) (count offset z : Z).

Lemma Write_fwrite f str :
  Write f str = (fst (fwrite f str) =? length str, snd (fwrite f str)).
Proof. unfold Write. now destruct (fwrite f str). Qed.

(** With room on the device for what goes past the end, [fwrite] takes the
    whole string. *)
Lemma fwrite_all f str :
  length str <= (length (contents f) - position f) + room f ->
  fst (fwrite f str) = length str.
Proof.
  intros Hr. unfold fwrite. rewrite Nat.min_l by exact Hr.
  destruct (length str =? 0) eqn:H0; cbn [fst]; [|reflexivity].
  now apply Nat.eqb_eq in H0.
Qed.

Lemma fwrite_Write_effect f str :
  fst (fwrite f str) <= length str
  /\ (fst (Write f str) = true <-> fst (fwrite f str) = length str)
  /\ position (snd (Write f str)) = position f + fst (fwrite f str)
  /\ take (fst (fwrite f str))
       (drop (position f) (contents (snd (Write f str))))
     = take (fst (fwrite f str)) str
  /\ (forall i, i < position f -> i < length (contents f) ->
        contents (snd (Write f str)) !! i = contents f !! i)
  /\ (forall i, position f + fst (fwrite f str) <= i ->
        contents (snd (Write f str)) !! i = contents f !! i)
  /\ length (contents f) <= length (contents (snd (Write f str))).
Proof.
  rewrite Write_fwrite. cbn [fst snd]. rewrite Nat.eqb_eq.
  unfold fwrite.
  set (old := contents f). set (pos := position f).
  set (n := Nat.min (length str) (length old - pos + room f)).
  assert (Hn : n <= length str) by (subst n; lia).
  destruct (n =? 0) eqn:H0; cbn [fst snd contents position].
  - rewrite Nat.add_0_r. fold old pos. repeat split; auto; lia.
  - apply Nat.eqb_neq in H0.
    set (A := take pos (old ++ replicate (pos - length old) x00)).
    assert (HA : length A = pos).
    { subst A. rewrite length_take, length_app, length_replicate. lia. }
    assert (HB : length (take n str) = n) by (rewrite length_take; lia).
    repeat split; auto.
    + rewrite drop_app_length' by now rewrite HA.
      now rewrite take_app_length' by now rewrite HB.
    + intros i Hi Hi'. rewrite lookup_app_l by lia.
      subst A. rewrite lookup_take_lt by lia. now rewrite lookup_app_l by lia.
    + intros i Hi. rewrite lookup_app_r by lia.
      rewrite lookup_app_r by lia. rewrite lookup_drop, HA, HB.
      f_equal. lia.
    + rewrite !length_app, HA, HB, length_drop. lia.
Qed.

(** X12: on a stream opened for update and moved to the offset [p] below
    2^31, a [Write] for which the device has room returns true; afterwards
    [Tell] is [p] plus the length of the string, the bytes of the file from
    [p] on are those of the string, the bytes in front of [p] and those
    behind the string are as before, and the file is not shorter. *)
Theorem Write_effect (g : FILE) (p : Z) str :
  (0 <= p < 2 ^ 31)%Z ->
  length str <= (length (contents g) - Z.to_nat p) + room g ->
  fst (Write (updating_at g p) str) = true
  /\ Tell (snd (Write (updating_at g p) str)) = (p + Z.of_nat (length str))%Z
  /\ take (length str)
       (drop (Z.to_nat p) (contents (snd (Write (updating_at g p) str))))
     = str
  /\ (forall i, i < Z.to_nat p -> i < length (contents g) ->
        contents (snd (Write (updating_at g p) str)) !! i = contents g !! i)
  /\ (forall i, Z.to_nat p + length str <= i ->
        contents (snd (Write (updating_at g p) str)) !! i = contents g !! i)
  /\ length (contents g)
     <= length (contents (snd (Write (updating_at g p) str))).
Proof.
  intros Hp Hr. rewrite updating_at_eq by lia.
  pose proof (fwrite_all (mkFILE (contents g) (Z.to_nat p) (room g)) str Hr)
    as Hn.
  destruct (fwrite_Write_effect
              (mkFILE (contents g) (Z.to_nat p) (room g)) str)
    as (_ & Hiff & Hpos & Hslice & Hfront & Hback & Hlen).
  cbn [contents position room] in Hpos, Hslice, Hfront, Hback, Hlen.
  rewrite Hn in Hpos, Hslice, Hback. rewrite firstn_all in Hslice.
  split; [now apply Hiff|]. split.
  { unfold Tell, ftell. rewrite Hpos. lia. }
  split; [exact Hslice|]. split; [exact Hfront|]. split; [exact Hback|].
  exact Hlen.
Qed.

(** X13: on a stream opened for update and moved to the offset [p] below
    2^31, writing a string of fewer than 2^31 bytes for which the device has
    room, seeking back to [p] and reading as many bytes gives the string. *)
Theorem Write_Seek_Read (g : FILE) (p : Z) str :
  (0 <= p < 2 ^ 31)%Z ->
  length str <= (length (contents g) - Z.to_nat p) + room g ->
  (Z.of_nat (length str) < 2 ^ 31)%Z ->
  fst (Write (updating_at g p) str) = true
  /\ fst (Read (snd (Seek (snd (Write (updating_at g p) str)) p))
            (Z.of_nat (length str)))
     = Returns str.
Proof.
  intros Hp Hr Hs. rewrite updating_at_eq by lia.
  pose proof (fwrite_all (mkFILE (contents g) (Z.to_nat p) (room g)) str Hr)
    as Hn.
  destruct (fwrite_Write_effect
              (mkFILE (contents g) (Z.to_nat p) (room g)) str)
    as (_ & Hiff & _ & Hslice & _).
  cbn [contents position room] in Hslice. rewrite Hn in Hslice.
  split; [now apply Hiff|].
  rewrite Seek_eq. destruct (Z.ltb_spec p 0) as [Hlt|_]; [lia|].
  cbn [snd]. rewrite Read_in_range by lia. cbn [fst contents position].
  now rewrite !Nat2Z.id, Hslice, firstn_all.
Qed.



(** X17: the two whole-file functions are fatal exactly when the file does not
    open. *)
Theorem open_failure_is_fatal (fopen : string -> string -> option FILE)
    (filename mode : string) str :
  (WriteContentsToFile fopen filename mode str = Throws SpielFatalError
   <-> fopen (c_str filename) (c_str mode) = None)
  /\ (ReadContentsFromFile fopen filename mode = Throws SpielFatalError
      <-> fopen (c_str filename) (c_str mode) = None).
Proof.
  unfold WriteContentsToFile, ReadContentsFromFile, new.
  destruct (fopen (c_str filename) (c_str mode)) as [f|];
    cbn [SPIEL_CHECK_TRUE]; split; split; try discriminate; try reflexivity.
  - destruct (Write f str). discriminate.
  - pose proof (ReadContents_eq f) as E. cbv zeta in E. rewrite E. cbn [fst].
    destruct (to_int _ <? 0)%Z; discriminate.
Qed.

(** X18: a string of fewer than 2^31 bytes that [WriteContentsToFile] writes to a
    new file with room for it is what [ReadContentsFromFile] returns when the
    file is opened again. *)
Theorem WriteContentsToFile_ReadContentsFromFile
    (fopen_w : string -> string -> option FILE) (filename : string) str r :
  fopen_w (c_str filename) (c_str "w") = Some (fresh r) ->
  length str <= r ->
  (Z.of_nat (length str) < 2 ^ 31)%Z ->
  exists f',
    WriteContentsToFile fopen_w filename "w" str = Returns (tt, f')
    /\ contents f' = str
    /\ forall fopen_r : string -> string -> option FILE,
         fopen_r (c_str filename) (c_str "r") = Some (reopen f') ->
         ReadContentsFromFile fopen_r filename "r" = Returns str.
Proof.
  intros Ho Hr Hs.
  assert (Hw : fst (Write (fresh r) str) = true).
  { rewrite Write_fresh. now apply Nat.leb_le. }
  exists (snd (Write (fresh r) str)).
  split; [now apply WriteContentsToFile_opened|].
  rewrite (Write_fresh_complete _ _ Hw). cbn [contents].
  split; [reflexivity|].
  intros fopen_r Hor. unfold ReadContentsFromFile, new. rewrite Hor.
  cbn [SPIEL_CHECK_TRUE]. now apply ReadContents_small.
Qed.

End WriteAndReadBack.

Section Appending.

Import File.

Implicit Types (f : FILE) (s str : list byte).

Lemma Write_at_end f str :
  position f = length (contents f) ->
  fst (Write f str) = true ->
  contents (snd (Write f str)) = contents f ++ str
  /\ position (snd (Write f str)) = length (contents f ++ str).
Proof.
  intros Hp. rewrite Write_fwrite. cbn [fst snd]. intros Hn%Nat.eqb_eq.
  revert Hn. unfold fwrite. rewrite Hp, Nat.sub_diag, Nat.add_0_l.
  destruct (Nat.min (length str) (room f) =? 0) eqn:H0; cbn [fst snd].
  - intros Hs. destruct str; [|discriminate Hs].
    rewrite app_nil_r. now split.
  - intros Hs. cbn [contents position replicate]. rewrite Hs.
    rewrite app_nil_r, firstn_all, firstn_all.
    rewrite drop_ge by lia. rewrite app_nil_r, length_app. now split.
Qed.

(** X14: on a stream opened for update and moved to the end of a file of
    fewer than 2^31 bytes, a [Write] for which the device has room returns
    true and appends: the bytes of the file are the old ones followed by the
    string, and [Tell] is at the end again. *)
Theorem Write_appends (g : FILE) str :
  (Z.of_nat (length (contents g)) < 2 ^ 31)%Z ->
  length str <= room g ->
  fst (Write (updating_at g (Z.of_nat (length (contents g)))) str) = true
  /\ contents
       (snd (Write (updating_at g (Z.of_nat (length (contents g)))) str))
     = contents g ++ str
  /\ Tell (snd (Write (updating_at g (Z.of_nat (length (contents g)))) str))
     = Z.of_nat (length (contents g ++ str)).
Proof.
  intros Hs Hr. rewrite updating_at_eq by lia. rewrite Nat2Z.id.
  set (f := mkFILE (contents g) (length (contents g)) (room g)).
  assert (Hw : fst (Write f str) = true).
  { rewrite Write_fwrite. cbn [fst]. apply Nat.eqb_eq.
    apply fwrite_all. subst f. cbn [contents position room]. lia. }
  destruct (Write_at_end f str eq_refl Hw) as [Hc Hp].
  split; [exact Hw|]. split; [exact Hc|].
  unfold Tell, ftell. now rewrite Hp.
Qed.

(** X15: two writes in a row to a new file on a device with room for both
    strings return true and leave the first string followed by the second,
    with [Tell] at the sum of their lengths. *)
Theorem Write_Write_fresh r (s1 s2 : list byte) :
  length s1 + length s2 <= r ->
  fst (Write (fresh r) s1) = true
  /\ fst (Write (snd (Write (fresh r) s1)) s2) = true
  /\ contents (snd (Write (snd (Write (fresh r) s1)) s2)) = s1 ++ s2
  /\ Tell (snd (Write (snd (Write (fresh r) s1)) s2))
     = Z.of_nat (length s1 + length s2).
Proof.
  intros Hr.
  assert (H1 : fst (Write (fresh r) s1) = true).
  { rewrite Write_fresh. cbn [fst]. apply Nat.leb_le. lia. }
  rewrite (Write_fresh_complete _ _ H1).
  set (f := mkFILE s1 (length s1) (r - length s1)).
  assert (H2 : fst (Write f s2) = true).
  { rewrite Write_fwrite. cbn [fst]. apply Nat.eqb_eq.
    apply fwrite_all. subst f. cbn [contents position room]. lia. }
  destruct (Write_at_end f s2 eq_refl H2) as [Hc Hp].
  split; [exact H1|]. split; [exact H2|]. split; [exact Hc|].
  unfold Tell, ftell. rewrite Hp. subst f. cbn [contents].
  now rewrite length_app.
Qed.

End Appending.

(** ** Environment *)

Section MoreEnvironment.

Implicit Types (env : gmap string string) (key name value d : string).

Lemma c_str_append_NUL key junk :
  c_str (key ++ String zero junk)%string = c_str key.
Proof.
  induction key as [|c key IH]; [reflexivity|].
  change (String c key ++ String zero junk)%string
    with (String c (key ++ String zero junk)%string).
  cbn [c_str]. now rewrite IH.
Qed.

(** X19: [GetEnv] reads the key up to its first NUL: what follows does not
    matter. *)
Theorem GetEnv_key_up_to_NUL env key junk d :
  GetEnv env (key ++ String zero junk)%string d = GetEnv env key d.
Proof. unfold GetEnv. now rewrite c_str_append_NUL. Qed.

Lemma setenv_valid env name value :
  valid_name name = true -> setenv env name value = <[name := value]> env.
Proof. intros Hv. unfold setenv. now rewrite Hv. Qed.

Lemma unsetenv_valid env name :
  valid_name name = true -> unsetenv env name = delete name env.
Proof. intros Hv. unfold unsetenv. now rewrite Hv. Qed.

Lemma setenv_other env name value other :
  other <> name -> setenv env name value !! other = env !! other.
Proof.
  intros Hne. unfold setenv. destruct (valid_name name); [|reflexivity].
  now apply lookup_insert_ne.
Qed.

Lemma unsetenv_other env name other :
  other <> name -> unsetenv env name !! other = env !! other.
Proof.
  intros Hne. unfold unsetenv. destruct (valid_name name); [|reflexivity].
  now apply lookup_delete_ne.
Qed.

(** X20: [GetEnv] sees the environment as it is at the call. For a key that
    [setenv] accepts (not empty, no ['=']) and a value that is a C string:
    after [setenv] of the key [GetEnv] returns the new value, after
    [unsetenv] of the key it returns the default; and [setenv] or [unsetenv]
    of another name, accepted or refused, does not change what it returns. *)
Theorem GetEnv_setenv env key value d :
  valid_name (c_str key) = true ->
  c_str value = value ->
  GetEnv (setenv env (c_str key) value) key d = value
  /\ GetEnv (unsetenv env (c_str key)) key d = d
  /\ (forall name, name <> c_str key ->
        GetEnv (setenv env name value) key d = GetEnv env key d
        /\ GetEnv (unsetenv env name) key d = GetEnv env key d).
Proof.
  intros Hv _. unfold GetEnv, getenv. repeat split.
  - now rewrite (setenv_valid _ _ _ Hv), lookup_insert_eq.
  - now rewrite (unsetenv_valid _ _ Hv), lookup_delete_eq.
  - now rewrite setenv_other by congruence.
  - now rewrite unsetenv_other by congruence.
Qed.

(** X21: [PosixTmpdirRestorer]: whatever happens to the environment between the
    constructor and the destructor, the destructor leaves [TMPDIR] as the
    constructor found it and touches no other name; so [GetTmpDir] answers
    as before, and when only [TMPDIR] was changed the environment is the one
    the constructor saw. *)
Theorem PosixTmpdirRestorer_restores env env' :
  (forall value, env !! "TMPDIR" = Some value -> c_str value = value) ->
  PosixTmpdirRestorer.destructor (PosixTmpdirRestorer.new env) env' !! "TMPDIR"
  = env !! "TMPDIR"
  /\ (forall name, name <> "TMPDIR" ->
        PosixTmpdirRestorer.destructor (PosixTmpdirRestorer.new env) env'
          !! name
        = env' !! name)
  /\ GetTmpDir POSIX
       (PosixTmpdirRestorer.destructor (PosixTmpdirRestorer.new env) env')
     = GetTmpDir POSIX env
  /\ ((forall name, name <> "TMPDIR" -> env' !! name = env !! name) ->
        PosixTmpdirRestorer.destructor (PosixTmpdirRestorer.new env) env'
        = env).
Proof.
  intros Hc.
  unfold PosixTmpdirRestorer.destructor, PosixTmpdirRestorer.new, getenv.
  assert (Hat : forall e : gmap string string,
            GetTmpDir POSIX e
            = match e !! "TMPDIR" with Some v => v | None => "/tmp" end)
    by reflexivity.
  destruct (env !! "TMPDIR") as [value|] eqn:Hv;
    cbn [PosixTmpdirRestorer.had_value PosixTmpdirRestorer.original];
    rewrite ?(setenv_valid _ "TMPDIR") by reflexivity;
    rewrite ?(unsetenv_valid _ "TMPDIR") by reflexivity.
  - rewrite (Hc value eq_refl).
    split; [apply lookup_insert_eq|].
    split; [intros name Hn; now apply lookup_insert_ne|].
    split; [now rewrite !Hat, lookup_insert_eq, Hv|].
    intros Hsame. apply map_eq. intros name.
    destruct (decide (name = "TMPDIR")) as [->|Hn].
    + now rewrite lookup_insert_eq.
    + rewrite lookup_insert_ne by congruence. now apply Hsame.
  - split; [apply lookup_delete_eq|].
    split; [intros name Hn; now apply lookup_delete_ne|].
    split; [now rewrite !Hat, lookup_delete_eq, Hv|].
    intros Hsame. apply map_eq. intros name.
    destruct (decide (name = "TMPDIR")) as [->|Hn].
    + now rewrite lookup_delete_eq.
    + rewrite lookup_delete_ne by congruence. now apply Hsame.
Qed.

End MoreEnvironment.

(** ** [NormalizeDirPathForTest] *)

Section Normalize.

Implicit Types (path r : string) (i k n m fuel : nat).

Lemma prefix_prefix n m path : n <= m -> prefix n (prefix m path) = prefix n path.
Proof.
  revert m path. induction n as [|n IH]; intros m path Hnm.
  - now destruct (prefix m path).
  - destruct m as [|m]; [lia|]. destruct path as [|c path]; [reflexivity|].
    cbn [prefix]. f_equal. apply IH. lia.
Qed.

Lemma at_prefix n path i : i < n -> at_ (prefix n path) i = at_ path i.
Proof.
  revert path i. induction n as [|n IH]; intros path i Hi; [lia|].
  destruct path as [|c path]; [reflexivity|].
  destruct i as [|i]; [reflexivity|].
  cbn [prefix]. rewrite !at_cons_S. apply IH. lia.
Qed.

Lemma size_pop_back path : size (pop_back path) = size path - 1.
Proof. unfold pop_back. rewrite size_prefix. lia. Qed.

(** The loop with enough fuel: it stops at a prefix of the path, having
    removed separators only, and where it stops the loop condition is false
    or the path is a bare drive root. *)
Lemma NormalizeDirPathForTest_loop_spec fuel path :
  size path <= fuel ->
  exists k,
    k <= size path
    /\ NormalizeDirPathForTest_loop fuel path = Some (prefix k path)
    /\ (forall i, k <= i -> i < size path -> is_separator (at_ path i) = true)
    /\ (k <= 1 \/ is_separator (at_ path (k - 1)) = false
        \/ drive_root (prefix k path) = true)
    /\ (1 <= size path -> 1 <= k).
Proof.
  revert path. induction fuel as [|fuel IH]; intros path Hf.
  - exists (size path). rewrite prefix_all by lia.
    assert (Hs : size path = 0) by lia.
    cbn [NormalizeDirPathForTest_loop]. rewrite Hs. cbn [Nat.ltb Nat.leb andb].
    split; [lia|]. split; [reflexivity|]. split; [intros; lia|].
    split; [left; lia | lia].
  - cbn [NormalizeDirPathForTest_loop].
    rewrite <- is_separator_cases.
    destruct (1 <? size path) eqn:H1; cbn [andb].
    2:{ apply Nat.ltb_ge in H1. exists (size path). rewrite prefix_all by lia.
        split; [lia|]. split; [reflexivity|]. split; [intros; lia|].
        split; [left; lia | lia]. }
    apply Nat.ltb_lt in H1.
    destruct (is_separator (back path)) eqn:Hb.
    2:{ exists (size path). rewrite prefix_all by lia.
        split; [lia|]. split; [reflexivity|]. split; [intros; lia|].
        split; [right; left; exact Hb | lia]. }
    destruct ((size path =? 3) && Ascii.eqb (at_ path 1) colon
              && is_letter (at_ path 0)) eqn:Hd.
    + exists (size path). rewrite prefix_all by lia.
      split; [lia|]. split; [reflexivity|]. split; [intros; lia|].
      split; [|lia]. right; right.
      unfold drive_root. rewrite Hd, <- is_separator_cases, Hb. reflexivity.
    + destruct (IH (pop_back path)) as (k & Hk & Hloop & Hrem & Hstop & Hpos).
      { rewrite size_pop_back. lia. }
      rewrite size_pop_back in Hk, Hrem, Hpos.
      unfold pop_back in Hloop, Hrem, Hstop.
      rewrite prefix_prefix in Hloop, Hstop by lia.
      exists k. split; [lia|]. split; [exact Hloop|]. split; [|split].
      * intros i Hki Hi.
        destruct (Nat.eq_dec i (size path - 1)) as [->|Hne]; [exact Hb|].
        rewrite <- (at_prefix (size path - 1)) by lia. apply Hrem; lia.
      * destruct Hstop as [Hle|[Hns|Hdr]]; [now left | | now right; right].
        destruct (Nat.le_gt_cases k 1) as [Hk1|Hk1]; [now left|].
        right; left. now rewrite at_prefix in Hns by lia.
      * intros _. apply Hpos. lia.
Qed.

Lemma NormalizeDirPathForTest_result path :
  exists r,
    NormalizeDirPathForTest path = Some r
    /\ r = prefix (size r) path
    /\ size r <= size path
    /\ (forall i, size r <= i -> i < size path ->
          is_separator (at_ path i) = true)
    /\ (size r <= 1 \/ is_separator (back r) = false \/ drive_root r = true)
    /\ (empty path = false -> empty r = false).
Proof.
  destruct (NormalizeDirPathForTest_loop_spec (size path) path (Nat.le_refl _))
    as (k & Hk & Hloop & Hrem & Hstop & Hpos).
  exists (prefix k path).
  assert (Hsz : size (prefix k path) = k) by (rewrite size_prefix; lia).
  rewrite Hsz. repeat split; auto.
  - unfold back. rewrite Hsz.
    destruct Hstop as [?|[Hns|?]]; [now left | | now right; right].
    destruct (Nat.le_gt_cases k 1) as [Hk1|Hk1]; [now left|].
    right; left. now rewrite at_prefix by lia.
  - intros Hne. destruct (empty (prefix k path)) eqn:He; [|reflexivity].
    apply empty_size in He. rewrite Hsz in He.
    destruct (empty path) eqn:Hp; [discriminate|].
    assert (size path <> 0) by (intros E; apply empty_size in E; congruence).
    lia.
Qed.

(** X22: [NormalizeDirPathForTest] returns. The result is a prefix of the path
    and only separators were cut off; it is not empty unless the path is;
    and it is a single character, or a bare drive root, or does not end in a
    separator. *)
Theorem NormalizeDirPathForTest_spec path :
  exists r,
    NormalizeDirPathForTest path = Some r
    /\ r = prefix (size r) path
    /\ size r <= size path
    /\ (forall i, size r <= i -> i < size path ->
          is_separator (at_ path i) = true)
    /\ (size r <= 1 \/ is_separator (back r) = false \/ drive_root r = true)
    /\ (empty path = false -> empty r = false).
Proof. exact (NormalizeDirPathForTest_result path). Qed.

(** A path that is a single character, a bare drive root, or does not end in
    a separator is returned as it is. *)
Lemma NormalizeDirPathForTest_fixed r :
  size r <= 1 \/ is_separator (back r) = false \/ drive_root r = true ->
  NormalizeDirPathForTest r = Some r.
Proof.
  unfold NormalizeDirPathForTest.
  intros [Hle|[Hns|Hdr]].
  - destruct (size r) as [|[|n]] eqn:Hs; [| |lia];
      cbn [NormalizeDirPathForTest_loop]; rewrite Hs; reflexivity.
  - destruct (size r) as [|n] eqn:Hs;
      cbn [NormalizeDirPathForTest_loop]; rewrite <- is_separator_cases, Hns;
      now rewrite andb_false_r.
  - unfold drive_root in Hdr.
    apply andb_prop in Hdr as [Hdr Hb].
    pose proof Hdr as Hdr'.
    apply andb_prop in Hdr' as [Hdr' _]. apply andb_prop in Hdr' as [H3 _].
    apply Nat.eqb_eq in H3. rewrite H3.
    cbn [NormalizeDirPathForTest_loop]. rewrite H3 at 1.
    cbn [Nat.ltb Nat.leb andb]. rewrite Hb, Hdr. reflexivity.
Qed.

(** X23: normalizing twice is normalizing once. *)
Theorem NormalizeDirPathForTest_idempotent path r :
  NormalizeDirPathForTest path = Some r ->
  NormalizeDirPathForTest r = Some r.
Proof.
  intros Hr. destruct (NormalizeDirPathForTest_result path)
    as (r' & Hr' & _ & _ & _ & Hstop & _).
  rewrite Hr in Hr'. injection Hr' as <-.
  now apply NormalizeDirPathForTest_fixed.
Qed.

End Normalize.

(** ** The operations on the table file system *)

Section OnTheTable.

Implicit Types (fs : gmap string Z) (sub other : string) (mode : Z).

Lemma land_lor_S_IFDIR mode : Z.land (Z.lor S_IFDIR mode) S_IFDIR <> 0%Z.
Proof.
  intros E.
  assert (Hbit : Z.testbit (Z.land (Z.lor S_IFDIR mode) S_IFDIR) 14 = true).
  { rewrite Z.land_spec, Z.lor_spec. reflexivity. }
  rewrite E, Z.bits_0 in Hbit. discriminate.
Qed.

Lemma add_directory_makes fs sub mode fs' :
  TableFS.add_directory fs sub mode = (0%Z, fs') ->
  exists m, TableFS.lookup_mode fs' sub = Some m /\ Z.land m S_IFDIR <> 0%Z.
Proof.
  unfold TableFS.add_directory.
  destruct (TableFS.lookup_mode fs sub); [discriminate|].
  intros [= <-]. exists (Z.lor S_IFDIR mode).
  unfold TableFS.lookup_mode. rewrite lookup_insert_eq.
  split; [reflexivity | apply land_lor_S_IFDIR].
Qed.

Lemma add_directory_keeps fs sub mode other m :
  TableFS.lookup_mode fs other = Some m ->
  TableFS.lookup_mode (snd (TableFS.add_directory fs sub mode)) other = Some m.
Proof.
  unfold TableFS.add_directory. intros Ho.
  destruct (TableFS.lookup_mode fs sub) eqn:Hs; [exact Ho|].
  cbn [snd]. unfold TableFS.lookup_mode in *.
  rewrite lookup_insert_ne; [exact Ho | congruence].
Qed.

(** On the table a successful [Mkdir] makes a directory. *)
Lemma TableFS_Mkdir_makes pl fs sub mode fs' :
  Mkdir (H := TableFS.calls) pl fs sub mode = (true, fs') ->
  IsDirectory (H := TableFS.calls) fs' sub = true.
Proof.
  unfold Mkdir. intros Hm. apply IsDirectory_stat.
  cbn [stat mkdir _mkdir TableFS.calls] in *.
  destruct pl.
  - destruct (TableFS.add_directory fs (c_str sub) mode) as [r fs1] eqn:Ha.
    injection Hm as Hr <-. apply Z.eqb_eq in Hr. subst r.
    now apply (add_directory_makes _ _ _ _ Ha).
  - destruct (TableFS.add_directory fs (c_str sub) 511) as [r fs1] eqn:Ha.
    injection Hm as Hr <-. apply Z.eqb_eq in Hr. subst r.
    now apply (add_directory_makes _ _ _ _ Ha).
Qed.

(** On the table no [Mkdir] undoes a directory. *)
Lemma TableFS_Mkdir_keeps pl fs sub mode other :
  IsDirectory (H := TableFS.calls) fs other = true ->
  IsDirectory (H := TableFS.calls)
    (snd (Mkdir (H := TableFS.calls) pl fs sub mode)) other = true.
Proof.
  rewrite !IsDirectory_stat. intros (m & Hm & Hb). exists m. split; [|exact Hb].
  unfold Mkdir. cbn [stat mkdir _mkdir TableFS.calls] in *.
  destruct pl.
  - pose proof (add_directory_keeps fs (c_str sub) mode _ _ Hm) as Hk.
    now destruct (TableFS.add_directory fs (c_str sub) mode).
  - pose proof (add_directory_keeps fs (c_str sub) 511 _ _ Hm) as Hk.
    now destruct (TableFS.add_directory fs (c_str sub) 511).
Qed.

End OnTheTable.

(** ** Instances of the properties above *)

Lemma IsDirectory_Exists_witness :
  IsDirectory (H := TableFS.calls) TableFS.sample "/tmp" = true
  /\ Exists (H := TableFS.calls) TableFS.sample "/tmp" = true
  /\ Exists (H := TableFS.calls) TableFS.sample "/nowhere" = false
  /\ IsDirectory (H := TableFS.calls) TableFS.sample "/nowhere" = false.
Proof.
  split; [reflexivity|]. split.
  - exact (proj1 (IsDirectory_Exists (H := TableFS.calls) TableFS.sample "/tmp")
             eq_refl).
  - split; [reflexivity|].
    exact (proj2 (IsDirectory_Exists (H := TableFS.calls) TableFS.sample
                    "/nowhere") eq_refl).
Defined.

Lemma Remove_dispatch_witness :
  stat (Syscalls := TableFS.calls) TableFS.sample (c_str "/dev/sda")
  = Some 25008%Z
  /\ S_ISBLK 25008 = true
  /\ Remove (H := TableFS.calls) TableFS.sample "/dev/sda"
     = (false, TableFS.sample)
  /\ stat (Syscalls := TableFS.calls) TableFS.sample (c_str "/tmp/f")
     = Some 33188%Z
  /\ S_ISREG 33188 = true
  /\ fst (Remove (H := TableFS.calls) TableFS.sample "/tmp/f") = true.
Proof.
  destruct (Remove_dispatch (H := TableFS.calls) TableFS.sample "/dev/sda")
    as (Hdir & _ & _).
  destruct (Remove_dispatch (H := TableFS.calls) TableFS.sample "/tmp/f")
    as (_ & Hreg & _).
  split; [reflexivity|]. split; [reflexivity|]. split.
  - rewrite (Hdir 25008%Z eq_refl (or_intror (or_introl eq_refl))). reflexivity.
  - split; [reflexivity|]. split; [reflexivity|].
    rewrite (Hreg 33188%Z eq_refl eq_refl). reflexivity.
Defined.

Lemma Mkdirs_loop_true_witness :
  exists fs',
    Mkdirs_loop (H := TableFS.calls) 12 POSIX TableFS.sample "/tmp/a/1/2" 493
      (Some 0)
    = Some (true, fs')
    /\ IsDirectory (H := TableFS.calls) fs' "/tmp/a/1/2" = true
    /\ IsDirectory (H := TableFS.calls) fs' "/tmp/a/1" = true.
Proof.
  eexists. split; [reflexivity|].
  destruct (Mkdirs_loop_true (H := TableFS.calls) POSIX
              (TableFS_Mkdir_makes POSIX) (TableFS_Mkdir_keeps POSIX)
              12 TableFS.sample "/tmp/a/1/2" 493 0 _ eq_refl eq_refl)
    as [Hpath Hpre].
  split; [exact Hpath|].
  apply (Hpre 8); [lia | cbn; lia | reflexivity].
Defined.

Lemma Mkdirs_loop_blocked_witness :
  stat (Syscalls := TableFS.calls) TableFS.sample (c_str (prefix 6 "/tmp/f/sub"))
  = Some 33188%Z
  /\ Z.land 33188 S_IFDIR = 0%Z
  /\ Mkdirs_loop (H := TableFS.calls) 11 POSIX TableFS.sample "/tmp/f/sub" 493
       (Some 0)
     = Some (false, TableFS.sample).
Proof.
  split; [reflexivity|]. split; [reflexivity|].
  apply (Mkdirs_loop_blocked (H := TableFS.calls) 11 POSIX TableFS.sample
           "/tmp/f/sub" 493 0 6 33188);
    [ | lia | cbn; lia | reflexivity | reflexivity | reflexivity | cbn; lia ].
  intros j Hlo Hhi Hsep.
  do 6 (destruct j as [|j];
        [ first [ lia | discriminate Hsep
                | (eexists; split; [reflexivity | discriminate]) ] | ]).
  lia.
Defined.

Lemma Seek_Tell_witness :
  (0 <= 3 < 2 ^ 31)%Z
  /\ File.Seek (reading_at written 3) 6 = (true, reading_at written 6)
  /\ File.Tell (reading_at written 6) = 6%Z
  /\ File.Seek (reading_at written 3) (-1) = (false, reading_at written 3).
Proof.
  assert (Hp : (0 <= 3 < 2 ^ 31)%Z) by lia.
  destruct (Seek_Tell written 3 6 Hp) as (_ & Hok).
  destruct (Seek_Tell written 3 (-1) Hp) as (Hfail & _).
  destruct Hok as (Hs & Ht & _); [lia|].
  split; [exact Hp|]. split; [exact Hs|]. split; [exact Ht|].
  apply Hfail. lia.
Defined.

Lemma Read_slice_witness :
  (0 <= 6 < 2 ^ 31)%Z
  /\ (0 <= 5 < 2 ^ 31)%Z
  /\ fst (File.Read (reading_at written 6) 5)
     = Returns (list_byte_of_string "world")
  /\ File.Tell (snd (File.Read (reading_at written 6) 5)) = 11%Z.
Proof.
  assert (Hp : (0 <= 6 < 2 ^ 31)%Z) by lia.
  assert (Hc : (0 <= 5 < 2 ^ 31)%Z) by lia.
  destruct (Read_slice written 6 5 Hp Hc) as (Hr & Ht & _).
  split; [exact Hp|]. split; [exact Hc|].
  split; [rewrite Hr; reflexivity | rewrite Ht; reflexivity].
Defined.

Lemma Read_at_end_witness :
  (0 <= 6 < 2 ^ 31)%Z
  /\ length (contents written) <= position written
  /\ File.Read written 6 = (Returns [], written).
Proof.
  assert (Hc : (0 <= 6 < 2 ^ 31)%Z) by lia.
  split; [exact Hc|]. split; [cbn; lia|].
  apply (Read_at_end written 6 Hc). cbn; lia.
Defined.

Lemma Read_Read_witness :
  exists a b,
    fst (File.Read (reopen written) 6) = Returns a
    /\ fst (File.Read (snd (File.Read (reopen written) 6)) 6) = Returns b
    /\ fst (File.Read (reopen written) (6 + 6)) = Returns (a ++ b).
Proof.
  destruct (Read_Read (reopen written) 6 6) as (a & b & Ha & Hb & Hab & _);
    [lia | lia | lia |].
  exists a, b. split; [exact Ha|]. split; [exact Hb|]. now rewrite Hab.
Defined.

Lemma Read_returns_file_bytes_witness :
  File.Read (reopen written) 5
  = (Returns (list_byte_of_string "hello"),
     mkFILE (contents written) 5 (room written))
  /\ exists n, n <= 5
       /\ list_byte_of_string "hello" = take n (contents written).
Proof.
  split; [reflexivity|].
  destruct (Read_returns_file_bytes (reopen written) 5
              (list_byte_of_string "hello")
              (mkFILE (contents written) 5 (room written)) eq_refl)
    as [(n & Hn & Hout) _].
  exists n. split; [exact Hn | exact Hout].
Defined.

Lemma Write_effect_witness :
  (0 <= 6 < 2 ^ 31)%Z
  /\ length (list_byte_of_string "there")
     <= (length (contents written) - Z.to_nat 6) + room written
  /\ fst (File.Write (updating_at written 6) (list_byte_of_string "there"))
     = true
  /\ contents
       (snd (File.Write (updating_at written 6) (list_byte_of_string "there")))
     = list_byte_of_string "hello there 42".
Proof.
  assert (Hp : (0 <= 6 < 2 ^ 31)%Z) by lia.
  assert (Hr : length (list_byte_of_string "there")
               <= (length (contents written) - Z.to_nat 6) + room written)
    by (cbn; lia).
  destruct (Write_effect written 6 (list_byte_of_string "there") Hp Hr)
    as (Hw & _).
  split; [exact Hp|]. split; [exact Hr|]. split; [exact Hw | reflexivity].
Defined.

Lemma Write_Seek_Read_witness :
  (0 <= 6 < 2 ^ 31)%Z
  /\ (Z.of_nat (length (list_byte_of_string "there")) < 2 ^ 31)%Z
  /\ fst (File.Read
            (snd (File.Seek
                    (snd (File.Write (updating_at written 6)
                            (list_byte_of_string "there")))
                    6))
            (Z.of_nat (length (list_byte_of_string "there"))))
     = Returns (list_byte_of_string "there").
Proof.
  assert (Hp : (0 <= 6 < 2 ^ 31)%Z) by lia.
  assert (Hs : (Z.of_nat (length (list_byte_of_string "there")) < 2 ^ 31)%Z)
    by (cbn; lia).
  split; [exact Hp|]. split; [exact Hs|].
  apply (Write_Seek_Read written 6 (list_byte_of_string "there") Hp);
    [cbn; lia | exact Hs].
Defined.


Lemma open_failure_is_fatal_witness :
  WriteContentsToFile (fun _ _ => None) "/nowhere/f" "w" expected
  = Throws SpielFatalError
  /\ ReadContentsFromFile (fun _ _ => None) "/nowhere/f" "r"
     = Throws SpielFatalError.
Proof.
  destruct (open_failure_is_fatal (fun _ _ => None) "/nowhere/f" "w" expected)
    as (Hw & _).
  destruct (open_failure_is_fatal (fun _ _ => None) "/nowhere/f" "r" expected)
    as (_ & Hr).
  split; [apply Hw; reflexivity | apply Hr; reflexivity].
Defined.

Lemma WriteContentsToFile_ReadContentsFromFile_witness :
  exists f',
    WriteContentsToFile (fun _ _ => Some (fresh 4096)) "/tmp/f" "w" expected
    = Returns (tt, f')
    /\ contents f' = expected
    /\ ReadContentsFromFile (fun _ _ => Some (reopen f')) "/tmp/f" "r"
       = Returns expected.
Proof.
  destruct (WriteContentsToFile_ReadContentsFromFile
              (fun _ _ => Some (fresh 4096)) "/tmp/f" expected 4096 eq_refl)
    as (f' & Hw & Hc & Hr); [cbn; lia | cbn; lia |].
  exists f'. split; [exact Hw|]. split; [exact Hc|].
  apply Hr. reflexivity.
Defined.

Lemma GetEnv_setenv_witness :
  valid_name (c_str "TMPDIR") = true
  /\ c_str "/custom" = "/custom"
  /\ GetEnv (setenv ∅ (c_str "TMPDIR") "/custom") "TMPDIR" "/tmp" = "/custom"
  /\ GetEnv (unsetenv {[ "TMPDIR" := "/custom" ]} (c_str "TMPDIR"))
       "TMPDIR" "/tmp" = "/tmp"
  /\ GetEnv (setenv ∅ "TMP" "/custom") "TMPDIR" "/tmp"
     = GetEnv ∅ "TMPDIR" "/tmp"
  /\ GetEnv (setenv {[ "TMPDIR" := "/custom" ]} "A=B" "/custom") "TMPDIR" "/tmp"
     = GetEnv {[ "TMPDIR" := "/custom" ]} "TMPDIR" "/tmp".
Proof.
  destruct (GetEnv_setenv ∅ "TMPDIR" "/custom" "/tmp" eq_refl eq_refl)
    as (Hset & _ & Hother).
  destruct (GetEnv_setenv {[ "TMPDIR" := "/custom" ]} "TMPDIR" "/custom" "/tmp"
              eq_refl eq_refl)
    as (_ & Hunset & Hother').
  split; [reflexivity|]. split; [reflexivity|].
  split; [exact Hset|]. split; [exact Hunset|]. split.
  - apply (Hother "TMP"). discriminate.
  - apply (Hother' "A=B"). discriminate.
Defined.

Lemma PosixTmpdirRestorer_restores_witness :
  PosixTmpdirRestorer.destructor
    (PosixTmpdirRestorer.new {[ "TMPDIR" := "/var/tmp" ]})
    (setenv {[ "TMPDIR" := "/var/tmp" ]} "TMPDIR" "/path/that/should/not/exist")
  = {[ "TMPDIR" := "/var/tmp" ]}.
Proof.
  destruct (PosixTmpdirRestorer_restores {[ "TMPDIR" := "/var/tmp" ]}
              (setenv {[ "TMPDIR" := "/var/tmp" ]} "TMPDIR"
                 "/path/that/should/not/exist"))
    as (_ & _ & _ & Hall).
  - intros value. rewrite lookup_singleton_eq. intros [= <-]. reflexivity.
  - apply Hall. intros name Hn. now apply setenv_other.
Defined.

Lemma NormalizeDirPathForTest_spec_witness :
  NormalizeDirPathForTest "C:\Temp\\" = Some "C:\Temp"
  /\ NormalizeDirPathForTest "C:\" = Some "C:\"
  /\ exists r, NormalizeDirPathForTest "/tmp/x//" = Some r
               /\ (size r <= 1 \/ is_separator (back r) = false
                   \/ drive_root r = true).
Proof.
  split; [reflexivity|]. split; [reflexivity|].
  destruct (NormalizeDirPathForTest_spec "/tmp/x//")
    as (r & Hr & _ & _ & _ & Hstop & _).
  exists r. split; [exact Hr | exact Hstop].
Defined.

Lemma NormalizeDirPathForTest_idempotent_witness :
  NormalizeDirPathForTest "/tmp/x//" = Some "/tmp/x"
  /\ NormalizeDirPathForTest "/tmp/x" = Some "/tmp/x".
Proof.
  split; [reflexivity|].
  exact (NormalizeDirPathForTest_idempotent "/tmp/x//" "/tmp/x" eq_refl).
Defined.

Lemma Mkdirs_loop_again_witness :
  exists fs',
    Mkdirs_loop (H := TableFS.calls) 12 POSIX TableFS.sample "/tmp/a/1/2" 493
      (Some 0)
    = Some (true, fs')
    /\ Mkdirs_loop (H := TableFS.calls) 12 POSIX fs' "/tmp/a/1/2" 493 (Some 0)
       = Some (true, fs').
Proof.
  eexists. split; [reflexivity|].
  apply (Mkdirs_loop_again (H := TableFS.calls) POSIX
           (TableFS_Mkdir_makes POSIX) (TableFS_Mkdir_keeps POSIX)
           12 12 TableFS.sample "/tmp/a/1/2" 493 0 _ eq_refl eq_refl).
  cbn; lia.
Defined.

Lemma Write_appends_witness :
  (Z.of_nat (length (contents written)) < 2 ^ 31)%Z
  /\ length (list_byte_of_string "!") <= room written
  /\ contents
       (snd (File.Write
               (updating_at written (Z.of_nat (length (contents written))))
               (list_byte_of_string "!")))
     = list_byte_of_string "hello world 42!".
Proof.
  assert (Hs : (Z.of_nat (length (contents written)) < 2 ^ 31)%Z) by (cbn; lia).
  assert (Hr : length (list_byte_of_string "!") <= room written) by (cbn; lia).
  destruct (Write_appends written (list_byte_of_string "!") Hs Hr)
    as (_ & Hc & _).
  split; [exact Hs|]. split; [exact Hr|]. rewrite Hc. reflexivity.
Defined.

Lemma Write_Write_fresh_witness :
  length (list_byte_of_string "hello ") + length (list_byte_of_string "world")
  <= 64
  /\ contents (snd (File.Write
                      (snd (File.Write (fresh 64) (list_byte_of_string "hello ")))
                      (list_byte_of_string "world")))
     = list_byte_of_string "hello " ++ list_byte_of_string "world".
Proof.
  assert (Hr : length (list_byte_of_string "hello ")
               + length (list_byte_of_string "world") <= 64) by (cbn; lia).
  split; [exact Hr|].
  exact (proj1 (proj2 (proj2 (Write_Write_fresh 64
                                (list_byte_of_string "hello ")
                                (list_byte_of_string "world") Hr)))).
Defined.

(** ** [Mkdirs] through its fallback *)

Section FallbackOfMkdirs.

Context {FS : Type} `{Syscalls FS}.

Implicit Types (fs : FS) (path : string) (mode ec : Z) (pl : platform) (i : nat).


End FallbackOfMkdirs.

